(** * The cml-2019 notebooks as programs over a library interface

    The repository holds three Jupyter notebooks:

    - [02b-Solution-StandardScaling]  (power-plant regression, raw and
      standardized features),
    - [0b-Recommender-Overview]       (NMF topic modelling of 20 newsgroups),
    - [04-Training-Dimensions-Streaming] (k-means on diamonds, PCA on iris).

    Each code cell is a short sequence of calls into pandas, numpy,
    scikit-learn and matplotlib.  The notebooks are embedded as programs of a
    free monad over the signature of those calls: a program is the tree of the
    calls it makes, and a handler supplies the library's answers.  The only
    function the repository defines itself, [print_top_words], is embedded
    with its loop, its slice and its indexing written out. *)

From stdpp Require Import gmap strings list pretty sorting.
From Stdlib Require Import Ascii QArith Qround.

Set Implicit Arguments.
Set Contextual Implicit.
Set Default Proof Using "Type".
Local Close Scope Q_scope.
Local Open Scope string_scope.
Local Open Scope list_scope.
Local Open Scope nat_scope.

(** ** Python exceptions *)

(** The exceptions the notebooks can meet; [LibraryError] stands for any
    other class a library raises. *)
Inductive exn :=
| IndexError
| KeyError
| ValueError
| AttributeError
| NotFittedError
| FileNotFoundError
| ParserError
| URLError
| LibraryError (class : string).

(** How a statement ends: with a value, or with an exception that nothing in
    the notebooks catches. *)
Inductive outcome (A : Type) :=
| Done (a : A)
| Raised (e : exn).

(** ** Estimators and object references *)

(** The estimator classes the notebooks instantiate, with the constructor
    arguments written in the source. *)
Inductive estimator :=
| LinearRegression
| StandardScaler
| TfidfVectorizer (max_df : Q) (min_df max_features : nat) (stop_words : string)
| NMF (n_components : nat) (random_state : option Z) (alpha l1_ratio : Q)
| KMeans (n_clusters : nat) (random_state : option Z)
| PCA (n_components : nat).

(** The estimators whose [fit] uses numpy's global random state: those with a
    [random_state] argument left at [None]. *)
Definition uses_global_rng (e : estimator) : bool :=
  match e with
  | KMeans _ None | NMF _ None _ _ => true
  | _ => false
  end.

(** A reference to an estimator object: an address in the kernel's heap.  The
    reference is typed by the estimator it was constructed as. *)
Record ref (e : estimator) := Ref { addr : nat }.

(** ** Python slicing and indexing, as the notebooks use them *)

(** [stop] of a slice with step [-1], adjusted to a sequence of length [len]
    (CPython's [PySlice_AdjustIndices]). *)
Definition adjust_stop_rev (len stop : Z) : Z :=
  if (stop <? 0)%Z
  then (if (stop + len <? 0)%Z then -1 else stop + len)%Z
  else (if (len <=? stop)%Z then len - 1 else stop)%Z.

(** [l[:stop:-1]]: from the last element downwards, [stop] excluded. *)
Definition slice_rev {A} (l : list A) (stop : Z) : list A :=
  let len := Z.of_nat (length l) in
  let start := (len - 1)%Z in
  let stop' := adjust_stop_rev len stop in
  let count := if (stop' <? start)%Z then (start - stop')%Z else 0%Z in
  take (Z.to_nat count) (reverse l).

(** The newline character of ["\nTopics in NMF model ..."]. *)
Definition nl : string := String "010"%char "".

Section Model.

(** The library's data, left abstract: a float64, a two-dimensional array-like
    (DataFrame, ndarray, sparse matrix), a one-dimensional one (Series, 1-d
    ndarray), what one draw from numpy's global random state yields, and the
    fitted attributes of an estimator. *)
Variables (num table column seed model : Type).

(** The [Bunch] returned by [fetch_20newsgroups] (only [data] is read) and by
    [load_iris]. *)
Record newsgroups := { ng_data : list string }.
Record iris_bunch := {
  iris_data : table;
  iris_target : column;
  iris_target_names : list string
}.

(** The four folds returned by [train_test_split(X, y, ...)]. *)
Record folds := {
  X_train : table; X_test : table;
  y_train : column; y_test : column
}.

(** ** The signature of library calls

    [call X] is a call whose answer has type [X]. *)
Inductive call : Type → Type :=
(* builtins and the notebook front end: [print(line)], the echo of a cell's
   last expression, [time()] *)
| Print (line : string) : call unit
| Display (repr : string) : call unit
| Time : call num
(* pandas: [pd.read_csv(path)], [df.iloc[:, :n]], [df.iloc[:, n]],
   [df.drop(df.columns[n], axis=1)], [pd.get_dummies(df)],
   [pd.DataFrame(data, columns=columns)],
   [df[df[where_col] == n][of_col].mean()] *)
| ReadCsv (path : string) : call table
| IlocColsBefore (df : table) (n : nat) : call table
| IlocCol (df : table) (n : nat) : call column
| DropCol (df : table) (n : nat) : call table
| GetDummies (df : table) : call table
| DataFrame (data : table) (columns : list string) : call table
| MeanWhere (df : table) (of_col where_col : string) (n : nat) : call num
(* numpy: [np.sqrt(x)], [row.argsort()], [np.column_stack(cols)],
   [a[y == i, col]] *)
| Sqrt (x : num) : call num
| Argsort (row : list num) : call (list nat)
| ColumnStack (cols : list column) : call table
| MaskedColumn (a : table) (y : column) (i col : nat) : call column
(* scikit-learn; [train_test_split] is never given a [random_state];
   [New e] is the constructor call, the others are methods and fitted
   attributes of the object [m] *)
| Fetch20Newsgroups (shuffle : bool) (random_state : Z) (remove : list string)
  : call newsgroups
| LoadIris : call iris_bunch
| TrainTestSplit (X : table) (y : column) (test_size : Q) : call folds
| MeanSquaredError (y_true y_pred : column) : call num
| New (e : estimator) : call (ref e)
| Fit {e} (m : ref e) (X : table) (y : option column) : call (ref e)
| FitTransform {e} (m : ref e) (X : table) : call table
| FitTransformText {e} (m : ref e) (docs : list string) : call table
| Transform {e} (m : ref e) (X : table) : call table
| Predict {e} (m : ref e) (X : table) : call column
| FitPredict {e} (m : ref e) (X : table) : call column
| Coef {e} (m : ref e) : call column
| Components {e} (m : ref e) : call (list (list num))
| ExplainedVarianceRatio {e} (m : ref e) : call column
| GetFeatureNames {e} (m : ref e) : call (list string)
(* matplotlib: [plt.scatter], [plt.legend], [plt.title] (whose [Text] a cell
   echoes) *)
| Scatter (xs ys : column) (color : string) (alpha : Q) (lw : nat)
    (label : string) : call unit
| Legend (loc : string) (shadow : bool) (scatterpoints : nat) : call unit
| Title (text : string) : call string.
Arguments New e : clear implicits.

(** ** Programs *)

Inductive prog (A : Type) : Type :=
| Ret (a : A)
| Throw (e : exn)
| Vis {X : Type} (c : call X) (k : X → prog A).

Fixpoint bind {A B} (p : prog A) (f : A → prog B) : prog B :=
  match p with
  | Ret a => f a
  | Throw e => Throw e
  | Vis c k => Vis c (λ x, bind (k x) f)
  end.

Definition perform {X} (c : call X) : prog X := Vis c (λ x, Ret x).

Declare Scope prog_scope.
Delimit Scope prog_scope with prog.
Notation "x <- y ;; z" := (bind y (λ x, z))
  (at level 20, y at level 99, z at level 200, only parsing,
   right associativity) : prog_scope.
Local Open Scope prog_scope.

(** [for x in l: body(x)] *)
Fixpoint for_each {T} (l : list T) (body : T → prog unit) : prog unit :=
  match l with
  | [] => Ret tt
  | x :: rest => bind (body x) (λ _, for_each rest body)
  end.

(** [l[i]] on a Python list: [IndexError] past the end. *)
Definition index {T} (l : list T) (i : nat) : prog T :=
  match l !! i with
  | Some x => Ret x
  | None => Throw IndexError
  end.

(** [[l[i] for i in idx]] *)
Fixpoint index_all {T} (l : list T) (idx : list nat) : prog (list T) :=
  match idx with
  | [] => Ret []
  | i :: rest =>
      bind (index l i) (λ x, bind (index_all l rest) (λ xs, Ret (x :: xs)))
  end.

(** ** Running a program against a handler *)

(** One executed call and the library's answer. *)
Inductive entry :=
| Entry {X} (c : call X) (r : exn + X).

Definition handler (S : Type) := ∀ X, call X → S → (exn + X) * S.

Definition log {A S} (e : entry) (r : list entry * outcome A * S)
  : list entry * outcome A * S :=
  (e :: r.1.1, r.1.2, r.2).

(** A raised exception ends the run: the continuation is dropped. *)
Fixpoint run {A S} (h : handler S) (p : prog A) (s : S)
  : list entry * outcome A * S :=
  match p with
  | Ret a => ([], Done a, s)
  | Throw e => ([], Raised e, s)
  | Vis c k =>
      match h _ c s with
      | (inl e, s1) => ([Entry c (inl e)], Raised e, s1)
      | (inr x, s1) => log (Entry c (inr x)) (run h (k x) s1)
      end
  end.

(** What running [p] and then [k] on its value amounts to. *)
Definition seq_run {A B S} (r : list entry * outcome A * S)
    (k : A → S → list entry * outcome B * S) : list entry * outcome B * S :=
  match r.1.2 with
  | Done a => let r2 := k a r.2 in (r.1.1 ++ r2.1.1, r2.1.2, r2.2)
  | Raised e => (r.1.1, Raised e, r.2)
  end.

(** ** What a run shows *)

(** The kind of exchange a call makes with the outside of the kernel's
    memory, as the notebook writes the call.

    [ReadsLocalFile path] is [pd.read_csv(path)].  [FetchesCorpus] is
    [fetch_20newsgroups] called with the default [data_home] and
    [download_if_missing]: the library finds its data directory through the
    environment variable [SCIKIT_LEARN_DATA] ([~/scikit_learn_data] when it
    is not set), creates the directory, answers from the cache it keeps
    there when the corpus is cached, and otherwise downloads the corpus over
    the network and writes the cache.  [LoadsBundled] is [load_iris], which
    reads a file shipped with the library.  numpy's global random state is
    seeded by the operating system; [train_test_split] is called with no
    [random_state], and so is [KMeans].  [InMemory] is a call that takes its
    data from its arguments and returns it as a value. *)
Inductive effect :=
| ReadsLocalFile (path : string)
| FetchesCorpus
| LoadsBundled
| ReadsClock
| DrawsRandom
| WritesConsole
| DrawsPlot
| InMemory.

(** The places outside the kernel's memory that the data of a call comes
    from or goes to, with what decides where it is kept.  [DataHome] is
    scikit-learn's data directory with the cache of the fetched datasets;
    [PackageData] are the data files shipped with the library.  These are
    the sources and sinks of the data a call handles: what an implementation
    consults besides while it computes (thread settings, fonts) is not
    recorded. *)
Inductive place :=
| LocalFile (path : string)
| EnvironmentVariable (name : string)
| DataHome
| Network
| PackageData
| SystemClock
| GlobalRandomState
| Console
| Figure.

(** What a call of each kind reads outside the kernel's memory, *)
Definition reads (ef : effect) : list place :=
  match ef with
  | ReadsLocalFile path => [LocalFile path]
  | FetchesCorpus => [EnvironmentVariable "SCIKIT_LEARN_DATA"; DataHome; Network]
  | LoadsBundled => [PackageData]
  | ReadsClock => [SystemClock]
  | DrawsRandom => [GlobalRandomState]
  | WritesConsole | DrawsPlot | InMemory => []
  end.

(** and what it creates or writes there: the corpus fetch creates the data
    directory and writes its cache file there; prints and echoes go to the
    console, plots to the inline figure. *)
Definition writes (ef : effect) : list place :=
  match ef with
  | FetchesCorpus => [DataHome]
  | WritesConsole => [Console]
  | DrawsPlot => [Figure]
  | ReadsLocalFile _ | LoadsBundled | ReadsClock | DrawsRandom | InMemory => []
  end.

(** What fitting an estimator does outside the kernel's memory. *)
Definition fit_effect (e : estimator) : effect :=
  if uses_global_rng e then DrawsRandom else InMemory.

Definition effect_of {X} (c : call X) : effect :=
  match c with
  | Print _ | Display _ => WritesConsole
  | Time => ReadsClock
  | ReadCsv path => ReadsLocalFile path
  | Fetch20Newsgroups _ _ _ => FetchesCorpus
  | LoadIris => LoadsBundled
  | Scatter _ _ _ _ _ _ | Legend _ _ _ | Title _ => DrawsPlot
  | TrainTestSplit _ _ _ => DrawsRandom
  | @Fit e _ _ _ | @FitTransform e _ _ | @FitPredict e _ _ => fit_effect e
  | _ => InMemory
  end.

(** The pipeline stage a call belongs to: acquiring a dataset, transforming
    features (one-hot encoding, rescaling, vectorizing), fitting an
    estimator.  Column selection, splitting, prediction, metrics and
    attribute reads belong to none. *)
Inductive stage := Load | Reshape | Train.

Definition stage_of {X} (c : call X) : option stage :=
  match c with
  | ReadCsv _ | Fetch20Newsgroups _ _ _ | LoadIris => Some Load
  | GetDummies _ | FitTransform _ _ | FitTransformText _ _ | Transform _ _ =>
      Some Reshape
  | Fit _ _ _ | FitPredict _ _ => Some Train
  | _ => None
  end.

(** [estimator.fit(...)] and [estimator.fit_predict(...)]. *)
Definition is_fit {X} (c : call X) : bool :=
  match c with
  | Fit _ _ _ | FitPredict _ _ => true
  | _ => false
  end.

Definition entry_effect (en : entry) : effect :=
  match en with Entry c _ => effect_of c end.

Definition entry_stage (en : entry) : option stage :=
  match en with Entry c _ => stage_of c end.

Definition entry_is_fit (en : entry) : bool :=
  match en with Entry c _ => is_fit c end.

Definition entry_line (en : entry) : option string :=
  match en with
  | Entry (Print line) (inr _) => Some line
  | _ => None
  end.

(** The exception a call was answered with. *)
Definition entry_error (en : entry) : option exn :=
  match en with
  | Entry _ (inl e) => Some e
  | _ => None
  end.

(** [print(...)] and the echo of a cell's last expression. *)
Definition is_output {X} (c : call X) : bool :=
  match c with
  | Print _ | Display _ => true
  | _ => false
  end.

Definition entry_is_output (en : entry) : bool :=
  match en with Entry c _ => is_output c end.

Definition fit_of {X} (c : call X) : option () :=
  if is_fit c then Some () else None.

(** A call that fits: [fit], [fit_predict] and also [fit_transform]. *)
Definition is_fitting {X} (c : call X) : bool :=
  match c with
  | Fit _ _ _ | FitPredict _ _ | FitTransform _ _ | FitTransformText _ _ => true
  | _ => false
  end.

Definition entry_is_fitting (en : entry) : bool :=
  match en with Entry c _ => is_fitting c end.

Definition fitting_of {X} (c : call X) : option () :=
  if is_fitting c then Some () else None.

(** The stage calls of a run, in order. *)
Definition pipeline (tr : list entry) : list stage := omap entry_stage tr.

(** How many times a run called [fit] or [fit_predict]. *)
Definition fit_calls (tr : list entry) : nat := length (List.filter entry_is_fit tr).

(** The same, [fit_transform] included. *)
Definition fitting_calls (tr : list entry) : nat :=
  length (List.filter entry_is_fitting tr).

(** [fetch_20newsgroups(...)]. *)
Definition is_fetch {X} (c : call X) : bool :=
  match c with
  | Fetch20Newsgroups _ _ _ => true
  | _ => false
  end.

Definition entry_is_fetch (en : entry) : bool :=
  match en with Entry c _ => is_fetch c end.

Definition fetch_of {X} (c : call X) : option () :=
  if is_fetch c then Some () else None.

(** How many times a run called [fetch_20newsgroups]. *)
Definition fetch_calls (tr : list entry) : nat :=
  length (List.filter entry_is_fetch tr).

(** The lines a run printed. *)
Definition console (tr : list entry) : list string := omap entry_line tr.

(** ** Python's own operations on library values

    Float subtraction and comparison, [%]-formatting of a float, [str] of
    the values the notebooks print and [repr] of the values a cell echoes. *)
Record builtins := {
  float_sub : num → num → num;
  float_le : num → num → bool;
  fmt_float : string → num → string;
  str_column : column → string;
  str_floats : list num → string;
  str_strings : list string → string;
  repr_column : column → string;
  repr_row : list num → string;
  repr_matrix : list (list num) → string;
  repr_pairs : list (string * num) → string
}.

Variable py : builtins.

(** [enumerate(l)], counting from [i]. *)
Fixpoint enumerate_from {T} (i : nat) (l : list T) : list (nat * T) :=
  match l with
  | [] => []
  | x :: rest => (i, x) :: enumerate_from (S i) rest
  end.

(** [[f(x) for x in l]] with a call per element. *)
Fixpoint collect {T U} (f : T → prog U) (l : list T) : prog (list U) :=
  match l with
  | [] => Ret []
  | x :: rest => y <- f x;; ys <- collect f rest;; Ret (y :: ys)
  end.

(** *** [print_top_words] (0b-Recommender-Overview, In[7])
<<
def print_top_words(model, feature_names, n_top_words):
    for topic_idx, topic in enumerate(model.components_):
        message = "Topic #%d: " % topic_idx
        message += " ".join([feature_names[i] for i in topic.argsort()[:-n_top_words - 1:-1]])
        print(message)
    print()
>> *)
Definition print_topic (feature_names : list string) (n_top_words : Z)
    (topic_idx : nat) (topic : list num) : prog unit :=
  order <- perform (Argsort topic);;
  words <- index_all feature_names (slice_rev order (- n_top_words - 1));;
  perform
    (Print ("Topic #" +:+ pretty topic_idx +:+ ": " +:+ String.concat " " words)).

Definition print_top_words {e} (model : ref e) (feature_names : list string)
    (n_top_words : Z) : prog unit :=
  components <- perform (Components model);;
  _ <- for_each (enumerate_from 0 components)
        (λ it, print_topic feature_names n_top_words it.1 it.2);;
  perform (Print "").

(** *** 02b-Solution-StandardScaling *)

(** [print("RMSE %f" % np.sqrt(mean_squared_error(y_test, y_pred)))],
    written in In[1] and again in In[3]. *)
Definition print_rmse (y_test y_pred : column) : prog unit :=
  mse <- perform (MeanSquaredError y_test y_pred);;
  rmse <- perform (Sqrt mse);;
  perform (Print ("RMSE " +:+ fmt_float py "%f" rmse)).

(** In[1] after the split: the regression on the raw features. *)
Definition baseline (f : folds) : prog unit :=
  lr <- perform (New LinearRegression);;
  linear <- perform (Fit lr (X_train f) (Some (y_train f)));;
  y_pred <- perform (Predict linear (X_test f));;
  _ <- print_rmse (y_test f) y_pred;;
  coef <- perform (Coef linear);;
  perform (Print (str_column py coef)).

(** In[2] after its split, In[3] and In[4]: the regression on the
    standardized features. *)
Definition standardized (f : folds) : prog unit :=
  (* In[2] *)
  ss <- perform (New StandardScaler);;
  X_train_ss <- perform (FitTransform ss (X_train f));;
  lr <- perform (New LinearRegression);;
  linear <- perform (Fit lr X_train_ss (Some (y_train f)));;
  (* In[3] *)
  X_test_ss <- perform (Transform ss (X_test f));;
  y_pred <- perform (Predict linear X_test_ss);;
  _ <- print_rmse (y_test f) y_pred;;
  (* In[4] *)
  coef <- perform (Coef linear);;
  perform (Display (repr_column py coef)).

Definition standard_scaling : prog unit :=
  (* In[1] *)
  df <- perform (ReadCsv "data/powerplant.csv");;
  X <- perform (IlocColsBefore df 4);;
  y <- perform (IlocCol df 4);;
  f <- perform (TrainTestSplit X y 0.3%Q);;
  _ <- baseline f;;
  (* In[2] *)
  f <- perform (TrainTestSplit X y 0.3%Q);;
  standardized f.

(** *** 0b-Recommender-Overview *)

Definition n_samples : nat := 2000.
Definition n_features : nat := 1000.
Definition n_components : nat := 10.
Definition n_top_words : Z := 20.

(** [print("done in %0.3fs." % (time() - t0))] *)
Definition print_elapsed (t0 : num) : prog unit :=
  t1 <- perform Time;;
  perform (Print ("done in " +:+ fmt_float py "%0.3f" (float_sub py t1 t0) +:+ "s.")).

Definition topic_modeling : prog unit :=
  (* In[1] *)
  _ <- perform (Print "Loading dataset...");;
  t0 <- perform Time;;
  dataset <- perform (Fetch20Newsgroups true 1%Z ["headers"; "footers"; "quotes"]);;
  _ <- print_elapsed t0;;
  (* In[2] *)
  _ <- perform (Print "Extracting tf-idf features for NMF...");;
  tfidf_vectorizer <- perform (New (TfidfVectorizer 0.95%Q 2 n_features "english"));;
  t0 <- perform Time;;
  tfidf <- perform (FitTransformText tfidf_vectorizer (take n_samples (ng_data dataset)));;
  _ <- print_elapsed t0;;
  (* In[3] *)
  _ <- perform (Print ("Fitting the NMF model (Frobenius norm) with tf-idf features, n_samples="
                      +:+ pretty n_samples +:+ " and n_features=" +:+ pretty n_features +:+ "..."));;
  t0 <- perform Time;;
  unfitted <- perform (New (NMF n_components (Some 1%Z) 0.1%Q 0.5%Q));;
  nmf <- perform (Fit unfitted tfidf None);;
  _ <- print_elapsed t0;;
  (* In[4] *)
  tfidf_feature_names <- perform (GetFeatureNames tfidf_vectorizer);;
  _ <- perform (Print (str_strings py tfidf_feature_names));;
  (* In[5] *)
  components <- perform (Components nmf);;
  topic0 <- index components 0;;
  _ <- perform (Display (repr_row py topic0));;
  (* In[6] *)
  components <- perform (Components nmf);;
  topic0 <- index components 0;;
  _ <- perform (Display (repr_pairs py
        (List.filter (λ it, String.ltb it.1 "b") (zip tfidf_feature_names topic0))));;
  (* In[7] *)
  _ <- perform (Print (nl +:+ "Topics in NMF model (Frobenius norm):"));;
  print_top_words nmf tfidf_feature_names n_top_words.

(** *** 04-Training-Dimensions-Streaming *)

(** [zip(colors, [0, 1, 2], target_names)] *)
Definition zip3 {T U V} (a : list T) (b : list U) (c : list V) : list (T * U * V) :=
  zip (zip a b) c.

Definition clustering_pca : prog unit :=
  (* In[1] *)
  df <- perform (ReadCsv "data/diamonds.csv");;
  df2 <- perform (DropCol df 0);;
  df3 <- perform (GetDummies df2);;
  y <- perform (IlocCol df3 3);;
  X <- perform (DropCol df3 3);;
  (* In[2] *)
  km <- perform (New (KMeans 3 None));;
  cluster_labels <- perform (FitPredict km X);;
  _ <- perform (Display (repr_column py cluster_labels));;
  (* In[3] *)
  stacked <- perform (ColumnStack [cluster_labels; y]);;
  kdf <- perform (DataFrame stacked ["cluster"; "price"]);;
  means <- collect (λ n, perform (MeanWhere kdf "price" "cluster" n)) (seq 0 3);;
  _ <- perform (Print (str_floats py means));;
  (* In[4] *)
  iris <- perform LoadIris;;
  pca <- perform (New (PCA 2));;
  fitted <- perform (Fit pca (iris_data iris) None);;
  X_r <- perform (Transform fitted (iris_data iris));;
  ratio <- perform (ExplainedVarianceRatio pca);;
  _ <- perform (Print ("explained variance ratio (first two components): "
                      +:+ str_column py ratio));;
  (* In[5] *)
  components <- perform (Components pca);;
  _ <- perform (Display (repr_matrix py components));;
  (* In[6] *)
  _ <- for_each (zip3 ["navy"; "turquoise"; "darkorange"] [0; 1; 2] (iris_target_names iris))
        (λ it,
           xs <- perform (MaskedColumn X_r (iris_target iris) it.1.2 0);;
           ys <- perform (MaskedColumn X_r (iris_target iris) it.1.2 1);;
           perform (Scatter xs ys it.1.1 0.8%Q 2 it.2));;
  _ <- perform (Legend "best" false 1);;
  text <- perform (Title "PCA of IRIS dataset");;
  perform (Display text).

(** ** The reference handler: a Python kernel over the library

    What lies outside the process ([world]) and what the library computes
    ([numerics]) are parameters.  The handler adds what the calls do to the
    kernel: estimator objects live in a heap and keep their fitted
    attributes, [time()] reads the clock, and every call that is given no
    [random_state] draws from numpy's global random state. *)

(** [corpus] is what [fetch_20newsgroups] answers: the corpus from the cache
    of the data directory or, when the cache lacks it, from the network. *)
Record world := {
  files : string → exn + table;
  corpus : bool → Z → list string → exn + newsgroups;
  bundled_iris : iris_bunch;
  entropy : nat → seed;
  clock : nat → num
}.

Record numerics := {
  pd_iloc_cols_before : table → nat → exn + table;
  pd_iloc_col : table → nat → exn + column;
  pd_drop_col : table → nat → exn + table;
  pd_get_dummies : table → exn + table;
  pd_dataframe : table → list string → exn + table;
  pd_mean_where : table → string → string → nat → exn + num;
  np_sqrt : num → num;
  np_argsort : list num → list nat;
  np_column_stack : list column → exn + table;
  np_masked_column : table → column → nat → nat → exn + column;
  train_test_split : seed → table → column → Q → exn + folds;
  mean_squared_error : column → column → exn + num;
  est_fit : estimator → option seed → table → option column → exn + model;
  est_fit_text : estimator → list string → exn + model;
  est_transform : model → table → exn + table;
  est_transform_text : model → list string → exn + table;
  est_predict : model → table → exn + column;
  est_labels : model → column;
  est_coef : model → column;
  est_components : model → list (list num);
  est_explained_variance_ratio : model → column;
  est_feature_names : model → list string;
  text_repr : string → string
}.

(** An estimator object: its class and constructor arguments, and its fitted
    attributes once [fit] has run. *)
Record object := {
  obj_class : estimator;
  obj_fitted : option model
}.

Record kernel := {
  heap : gmap nat object;
  next_addr : nat;
  draws : nat;
  ticks : nat
}.

Definition fresh_kernel : kernel :=
  {| heap := ∅; next_addr := 0; draws := 0; ticks := 0 |}.

Definition with_heap (hp : gmap nat object) (s : kernel) : kernel :=
  {| heap := hp; next_addr := next_addr s; draws := draws s; ticks := ticks s |}.

Definition allocate (o : object) (s : kernel) : kernel :=
  {| heap := <[next_addr s := o]> (heap s); next_addr := S (next_addr s);
     draws := draws s; ticks := ticks s |}.

Definition drawn (s : kernel) : kernel :=
  {| heap := heap s; next_addr := next_addr s; draws := S (draws s);
     ticks := ticks s |}.

Definition ticked (s : kernel) : kernel :=
  {| heap := heap s; next_addr := next_addr s; draws := draws s;
     ticks := S (ticks s) |}.

Variables (W : world) (N : numerics).

(** The fitted attributes of the object a reference points to, if it has
    been fitted. *)
Definition fitted {e} (m : ref e) (s : kernel) : option model :=
  heap s !! addr m ≫= obj_fitted.

(** A method of an unfitted estimator raises [NotFittedError]; reading one of
    its fitted attributes raises [AttributeError]. *)
Definition method {e} (m : ref e) (s : kernel) : exn + model :=
  from_option inr (inl NotFittedError) (fitted m s).

Definition attribute {e} (m : ref e) (s : kernel) : exn + model :=
  from_option inr (inl AttributeError) (fitted m s).

(** [fit]: learn the attributes and store them in the object. *)
Definition fit_object {e} (m : ref e) (learn : option seed → exn + model)
    (s : kernel) : (exn + model) * kernel :=
  let sd := if uses_global_rng e then Some (entropy W (draws s)) else None in
  let s1 := if uses_global_rng e then drawn s else s in
  match learn sd with
  | inl err => (inl err, s1)
  | inr md =>
      (inr md,
       with_heap (<[addr m := {| obj_class := e; obj_fitted := Some md |}]> (heap s1)) s1)
  end.

Definition and_then {T U} (r : exn + T) (f : T → exn + U) : exn + U :=
  match r with
  | inl err => inl err
  | inr x => f x
  end.

Definition sklearn : handler kernel :=
  λ X c,
    match c in call X return kernel → (exn + X) * kernel with
    | Print _ => λ s, (inr tt, s)
    | Display _ => λ s, (inr tt, s)
    | Time => λ s, (inr (clock W (ticks s)), ticked s)
    | ReadCsv path => λ s, (files W path, s)
    | IlocColsBefore df n => λ s, (pd_iloc_cols_before N df n, s)
    | IlocCol df n => λ s, (pd_iloc_col N df n, s)
    | DropCol df n => λ s, (pd_drop_col N df n, s)
    | GetDummies df => λ s, (pd_get_dummies N df, s)
    | DataFrame data columns => λ s, (pd_dataframe N data columns, s)
    | MeanWhere df c1 c2 n => λ s, (pd_mean_where N df c1 c2 n, s)
    | Sqrt x => λ s, (inr (np_sqrt N x), s)
    | Argsort row => λ s, (inr (np_argsort N row), s)
    | ColumnStack cols => λ s, (np_column_stack N cols, s)
    | MaskedColumn a y i col => λ s, (np_masked_column N a y i col, s)
    | Fetch20Newsgroups shuffle random_state remove =>
        λ s, (corpus W shuffle random_state remove, s)
    | LoadIris => λ s, (inr (bundled_iris W), s)
    | TrainTestSplit X y test_size =>
        λ s, (train_test_split N (entropy W (draws s)) X y test_size, drawn s)
    | MeanSquaredError y_true y_pred => λ s, (mean_squared_error N y_true y_pred, s)
    | New e =>
        λ s, (inr (Ref (next_addr s)),
              allocate {| obj_class := e; obj_fitted := None |} s)
    | @Fit e m X y =>
        λ s, let r := fit_object m (λ sd, est_fit N e sd X y) s in
             (and_then r.1 (λ _, inr m), r.2)
    | @FitTransform e m X =>
        λ s, let r := fit_object m (λ sd, est_fit N e sd X None) s in
             (and_then r.1 (λ md, est_transform N md X), r.2)
    | @FitTransformText e m docs =>
        λ s, let r := fit_object m (λ _, est_fit_text N e docs) s in
             (and_then r.1 (λ md, est_transform_text N md docs), r.2)
    | Transform m X => λ s, (and_then (method m s) (λ md, est_transform N md X), s)
    | Predict m X => λ s, (and_then (method m s) (λ md, est_predict N md X), s)
    | @FitPredict e m X =>
        λ s, let r := fit_object m (λ sd, est_fit N e sd X None) s in
             (and_then r.1 (λ md, inr (est_labels N md)), r.2)
    | Coef m => λ s, (and_then (attribute m s) (λ md, inr (est_coef N md)), s)
    | Components m =>
        λ s, (and_then (attribute m s) (λ md, inr (est_components N md)), s)
    | ExplainedVarianceRatio m =>
        λ s, (and_then (attribute m s)
                (λ md, inr (est_explained_variance_ratio N md)), s)
    | GetFeatureNames m =>
        λ s, (and_then (method m s) (λ md, inr (est_feature_names N md)), s)
    | Scatter _ _ _ _ _ _ => λ s, (inr tt, s)
    | Legend _ _ _ => λ s, (inr tt, s)
    | Title text => λ s, (inr (text_repr N text), s)
    end.

(** The three notebooks of the repository. *)
Definition notebooks : list (prog unit) :=
  [standard_scaling; topic_modeling; clustering_pca].

(** ** What the regression cells compute

    The root mean squared error of a linear regression fitted on the
    training fold and evaluated on the test fold: on the raw features, and
    on features standardized with the training fold's statistics. *)
Definition regression_rmse (Xtr Xte : table) (ytr yte : column) : exn + num :=
  and_then (est_fit N LinearRegression None Xtr (Some ytr)) (λ lm,
  and_then (est_predict N lm Xte) (λ y_pred,
  and_then (mean_squared_error N yte y_pred) (λ mse, inr (np_sqrt N mse)))).

Definition baseline_rmse (f : folds) : exn + num :=
  regression_rmse (X_train f) (X_test f) (y_train f) (y_test f).

Definition standardized_rmse (f : folds) : exn + num :=
  and_then (est_fit N StandardScaler None (X_train f) None) (λ stats,
  and_then (est_transform N stats (X_train f)) (λ X_train_ss,
  and_then (est_transform N stats (X_test f)) (λ X_test_ss,
  regression_rmse X_train_ss X_test_ss (y_train f) (y_test f)))).

(** The positions [print_top_words] selects from a topic:
    [topic.argsort()[:-n_top_words - 1:-1]]. *)
Definition selected (n_top_words : Z) (topic : list num) : list nat :=
  slice_rev (np_argsort N topic) (- n_top_words - 1).

(** ** Properties of programs, by induction on their call trees *)

(** Every call the program can make satisfies [P]. *)
Inductive all_calls {A} (P : ∀ X, call X → Prop) : prog A → Prop :=
| all_calls_ret a : all_calls P (Ret a)
| all_calls_throw e : all_calls P (Throw e)
| all_calls_vis X (c : call X) k :
    P X c → (∀ x, all_calls P (k x)) → all_calls P (Vis c k).

(** Every run of the program that completes makes the calls observed as
    [l] by [f], in this order. *)
Inductive yields {A O} (f : ∀ X, call X → option O) : list O → prog A → Prop :=
| yields_ret a : yields f [] (Ret a)
| yields_throw e l : yields f l (Throw e)
| yields_vis X (c : call X) k l :
    (∀ x, yields f l (k x)) → yields f (option_list (f X c) ++ l) (Vis c k).

Definition observe {O} (f : ∀ X, call X → option O) (en : entry) : option O :=
  match en with Entry c _ => f _ c end.

(** The last call of every run of the program that completes satisfies
    [P]. *)
Inductive finally {A} (P : ∀ X, call X → Prop) : prog A → Prop :=
| finally_throw e : finally P (Throw e)
| finally_last X (c : call X) k :
    P X c → (∀ x, ∃ a, k x = Ret a) → finally P (Vis c k)
| finally_later X (c : call X) k :
    (∀ x, finally P (k x)) → finally P (Vis c k).

(** The effects of a call are among [l]. *)
Definition within (l : list effect) : ∀ X, call X → Prop :=
  λ X c, effect_of c ∈ l.

(** The interfaces the specification lists: reads of a local CSV file, the
    fetch of the corpus, prints and plots (and what stays in memory). *)
Definition listed_interface (ef : effect) : bool :=
  match ef with
  | ReadsLocalFile _ | FetchesCorpus | WritesConsole | DrawsPlot | InMemory => true
  | LoadsBundled | ReadsClock | DrawsRandom => false
  end.

(** Load before transform before fit. *)
Definition stage_rank (st : stage) : nat :=
  match st with Load => 0 | Reshape => 1 | Train => 2 end.

Definition stage_le (a b : stage) : Prop := stage_rank a ≤ stage_rank b.

#[export] Instance stage_le_dec a b : Decision (stage_le a b).
Proof. unfold stage_le. apply _. Defined.

Definition in_pipeline_order (l : list stage) : Prop := StronglySorted stage_le l.

#[export] Instance in_pipeline_order_dec l : Decision (in_pipeline_order l).
Proof. unfold in_pipeline_order. apply _. Defined.

(** ** Ranking a row of weights *)

(** [row[i] <= row[j]], for valid positions [i] and [j]. *)
Definition weight_le (row : list num) (i j : nat) : Prop :=
  match row !! i, row !! j with
  | Some x, Some y => float_le py x y = true
  | _, _ => False
  end.

#[export] Instance weight_le_dec row i j : Decision (weight_le row i j).
Proof. unfold weight_le. destruct (row !! i), (row !! j); apply _. Defined.

(** [order] is an answer [row.argsort()] may give: the positions of [row],
    each once, by ascending weight.  Ties may come in any order. *)
Definition is_argsort (row : list num) (order : list nat) : Prop :=
  order ≡ₚ seq 0 (length row) ∧ StronglySorted (weight_le row) order.

(** [sel] lists the positions of [k] largest entries of [row], by
    non-increasing weight. *)
Record top_ranking (row : list num) (k : nat) (sel : list nat) : Prop := {
  top_length : length sel = k;
  top_nodup : NoDup sel;
  top_valid : ∀ i, i ∈ sel → i < length row;
  top_sorted : StronglySorted (flip (weight_le row)) sel;
  top_largest : ∀ i j, i ∈ sel → j < length row → j ∉ sel → weight_le row j i
}.

(** The line [print_top_words] builds for topic [k] from its words. *)
Definition topic_line (k : nat) (words : list string) : string :=
  "Topic #" +:+ pretty k +:+ ": " +:+ String.concat " " words.

(** ** What the other cells pass around *)

(** The list In[6] of 0b-Recommender-Overview echoes:
    [[(name, magnitude) for (name, magnitude) in zip(names, row) if name < 'b']]. *)
Definition names_before_b (names : list string) (row : list num)
  : list (string * num) :=
  List.filter (λ it, String.ltb it.1 "b") (zip names row).

(** The data a call fits an estimator on. *)
Definition fit_data {X} (c : call X) : option (table * option column) :=
  match c with
  | Fit _ X y => Some (X, y)
  | FitTransform _ X | FitPredict _ X => Some (X, None)
  | _ => None
  end.

(** The data a fitted estimator is applied to. *)
Definition applied_data {X} (c : call X) : option table :=
  match c with
  | Transform _ X | Predict _ X => Some X
  | _ => None
  end.

(** The true values a prediction is scored against. *)
Definition scored_data {X} (c : call X) : option column :=
  match c with
  | MeanSquaredError y_true _ => Some y_true
  | _ => None
  end.

(** The calls in which the kernel draws from numpy's global random state:
    [train_test_split], never given a [random_state], and the fits of the
    estimators that use it. *)
Definition draws_random {X} (c : call X) : bool :=
  match c with
  | TrainTestSplit _ _ _ => true
  | @Fit e _ _ _ | @FitTransform e _ _ | @FitTransformText e _ _
  | @FitPredict e _ _ => uses_global_rng e
  | _ => false
  end.

(** The scatter calls of a run. *)
Definition is_scatter {X} (c : call X) : bool :=
  match c with
  | Scatter _ _ _ _ _ _ => true
  | _ => false
  end.

Definition entry_is_scatter (en : entry) : bool :=
  match en with Entry c _ => is_scatter c end.

End Model.

Arguments New {num table column} e.
Arguments effect_of {num table column X} c.
Arguments stage_of {num table column X} c.
Arguments is_fit {num table column X} c.
Arguments entry_effect {num table column} en.
Arguments entry_stage {num table column} en.
Arguments entry_is_fit {num table column} en.
Arguments is_fetch {num table column X} c.
Arguments entry_is_fetch {num table column} en.
Arguments entry_line {num table column} en.
Arguments fit_data {num table column X} c.
Arguments applied_data {num table column X} c.
Arguments scored_data {num table column X} c.
Arguments is_scatter {num table column X} c.
Arguments draws_random {num table column X} c.
Arguments entry_is_scatter {num table column} en.

(** ** A small instance of the library over the integers

    Every theorem below holds for all worlds and all numerics.  This
    instance takes integers for floats and lists for arrays, so that the
    notebooks run on concrete inputs. *)
Module Sample.

Definition num := Z.
Definition column := list Z.
Definition table := list (list Z).

(** One draw of the random state: a permutation of the row positions. *)
Definition seed := list nat.

(** Fitted attributes, one record for every estimator. *)
Record model := {
  fitted_as : estimator;
  center : list Z;
  intercept : Z;
  coef : list Z;
  components : list (list Z);
  labels : list Z;
  ratio : list Z;
  vocabulary : list string
}.

Definition unfitted (e : estimator) : model :=
  {| fitted_as := e; center := []; intercept := 0; coef := []; components := [];
     labels := []; ratio := []; vocabulary := [] |}.

(** [str] and [repr] of an array. *)
Definition show_list (l : list Z) : string :=
  "[" +:+ String.concat " " (pretty <$> l) +:+ "]".

Definition show_items (l : list Z) : string :=
  "[" +:+ String.concat ", " (pretty <$> l) +:+ "]".

Definition show_array (l : list Z) : string :=
  "array(" +:+ show_items l +:+ ")".

Definition py : builtins num column :=
  {| float_sub := Z.sub;
     float_le := Z.leb;
     fmt_float := λ _ x, pretty x;
     str_column := show_list;
     str_floats := show_items;
     str_strings := λ l, "[" +:+ String.concat ", " ((λ w, "'" +:+ w +:+ "'") <$> l) +:+ "]";
     repr_column := show_array;
     repr_row := show_array;
     repr_matrix := λ m, "array([" +:+ String.concat ", " (show_items <$> m) +:+ "])";
     repr_pairs := λ l, "[" +:+ String.concat ", "
                          ((λ it, "('" +:+ it.1 +:+ "', " +:+ pretty it.2 +:+ ")") <$> l)
                        +:+ "]" |}.

Definition sum (l : list Z) : Z := foldr Z.add 0%Z l.

(** The mean, rounded down; [0] for no value. *)
Definition mean (l : list Z) : Z := (sum l / Z.of_nat (length l))%Z.

Definition width (X : table) : nat := from_option length 0 (head X).

(** Column [j] of the rows that have one. *)
Definition col (X : table) (j : nat) : list Z := omap (λ row, row !! j) X.

Definition rows_at (X : table) (idx : list nat) : option table := mapM (X !!.) idx.
Definition values_at (y : column) (idx : list nat) : option column := mapM (y !!.) idx.

(** [split]: the first [ceil(test_size * n)] positions of the
    drawn permutation are the test fold, the others the training fold. *)
Definition split (sd : seed) (X : table) (y : column) (test_size : Q)
  : exn + folds table column :=
  let n := length X in
  let n_test := Z.to_nat (Qceiling (test_size * inject_Z (Z.of_nat n))) in
  if bool_decide (length y = n ∧ 0 < n_test < n)%nat then
    match rows_at X (drop n_test sd), rows_at X (take n_test sd),
          values_at y (drop n_test sd), values_at y (take n_test sd) with
    | Some Xtr, Some Xte, Some ytr, Some yte =>
        inr {| X_train := Xtr; X_test := Xte; y_train := ytr; y_test := yte |}
    | _, _, _, _ => inl ValueError
    end
  else inl ValueError.

Definition mse (y_true y_pred : column) : exn + num :=
  if bool_decide (length y_true = length y_pred ∧ 0 < length y_true)%nat
  then inr (mean (zip_with (λ a b, (a - b) * (a - b))%Z y_true y_pred))
  else inl ValueError.

(** [argsort]: a sort of the positions by weight. *)
Definition argsort (row : list Z) : list nat :=
  merge_sort (weight_le py row) (seq 0 (length row)).

Definition fit (e : estimator) (sd : option seed) (X : table) (y : option column)
  : exn + model :=
  match e, y with
  | LinearRegression, Some y =>
      if bool_decide (length y = length X ∧ 0 < length X)%nat
      then inr {| fitted_as := e; center := []; intercept := mean y;
                  coef := replicate (width X) 0%Z; components := []; labels := [];
                  ratio := []; vocabulary := [] |}
      else inl ValueError
  | StandardScaler, _ =>
      if bool_decide (0 < length X)%nat
      then inr {| fitted_as := e; center := (λ j, mean (col X j)) <$> seq 0 (width X);
                  intercept := 0; coef := []; components := []; labels := [];
                  ratio := []; vocabulary := [] |}
      else inl ValueError
  | NMF k _ _ _, _ =>
      inr {| fitted_as := e; center := []; intercept := 0; coef := [];
             components := take k X; labels := []; ratio := []; vocabulary := [] |}
  | KMeans k _, _ =>
      if bool_decide (0 < k ≤ length X)%nat
      then inr {| fitted_as := e; center := []; intercept := 0; coef := [];
                  components := take k X;
                  labels := (λ i, Z.of_nat ((i + default 0 (sd ≫= head)) `mod` k))
                              <$> seq 0 (length X);
                  ratio := []; vocabulary := [] |}
      else inl ValueError
  | PCA k, _ =>
      if bool_decide (k ≤ width X)%nat
      then inr {| fitted_as := e; center := []; intercept := 0; coef := [];
                  components := (λ i, (λ j, if bool_decide (i = j) then 1 else 0)%Z
                                        <$> seq 0 (width X)) <$> seq 0 k;
                  labels := []; ratio := replicate k 0%Z; vocabulary := [] |}
      else inl ValueError
  | _, _ => inl ValueError
  end.

Definition alphabetical (a b : string) : Prop := String.leb a b = true.

#[export] Instance alphabetical_dec a b : Decision (alphabetical a b).
Proof. unfold alphabetical. apply _. Defined.

(** Each document counts as one term. *)
Definition fit_text (e : estimator) (docs : list string) : exn + model :=
  match e with
  | TfidfVectorizer _ _ max_features _ =>
      inr {| fitted_as := e; center := []; intercept := 0; coef := []; components := [];
             labels := []; ratio := [];
             vocabulary := take max_features
                             (merge_sort alphabetical (remove_dups docs)) |}
  | _ => inl ValueError
  end.

Definition transform (md : model) (X : table) : exn + table :=
  match fitted_as md with
  | StandardScaler => inr ((λ row, zip_with Z.sub row (center md)) <$> X)
  | PCA k => inr (take k <$> X)
  | _ => inl ValueError
  end.

Definition transform_text (md : model) (docs : list string) : exn + table :=
  inr ((λ doc, (λ w, if bool_decide (w = doc) then 1 else 0)%Z <$> vocabulary md) <$> docs).

Definition predict (md : model) (X : table) : exn + column :=
  inr ((λ row, intercept md + sum (zip_with Z.mul (coef md) row))%Z <$> X).

Definition iloc_col (df : table) (n : nat) : exn + column :=
  match mapM (λ row : list Z, row !! n) df with
  | Some c => inr c
  | None => inl IndexError
  end.

Definition drop_col (df : table) (n : nat) : exn + table :=
  if bool_decide (n < width df)%nat then inr (delete n <$> df) else inl IndexError.

Definition dataframe (data : table) (columns : list string) : exn + table :=
  if bool_decide (width data = length columns) then inr data else inl ValueError.

(** The frame of In[3] has the columns [cluster] and [price], in this order. *)
Definition position (name : string) : option nat :=
  if bool_decide (name = "cluster") then Some 0
  else if bool_decide (name = "price") then Some 1
  else None.

Definition mean_where (df : table) (of_col where_col : string) (n : nat) : exn + num :=
  match position of_col, position where_col with
  | Some j, Some k =>
      inr (mean (col (List.filter (λ row, bool_decide (row !! k = Some (Z.of_nat n))) df) j))
  | _, _ => inl KeyError
  end.

Definition column_stack (cols : list column) : exn + table :=
  match cols with
  | [a; b] =>
      if bool_decide (length a = length b)
      then inr (zip_with (λ x y, [x; y]) a b)
      else inl ValueError
  | _ => inl ValueError
  end.

Definition masked_column (a : table) (y : column) (i j : nat) : exn + column :=
  inr (col (fst <$> List.filter (λ it, bool_decide (it.2 = Z.of_nat i)) (zip a y)) j).

Definition library : numerics num table column seed model :=
  {| pd_iloc_cols_before := λ (df : table) n, inr (take n <$> df);
     pd_iloc_col := iloc_col;
     pd_drop_col := drop_col;
     pd_get_dummies := λ df : table, inr df;
     pd_dataframe := dataframe;
     pd_mean_where := mean_where;
     np_sqrt := Z.sqrt;
     np_argsort := argsort;
     np_column_stack := column_stack;
     np_masked_column := masked_column;
     train_test_split := split;
     mean_squared_error := mse;
     est_fit := fit;
     est_fit_text := fit_text;
     est_transform := transform;
     est_transform_text := transform_text;
     est_predict := predict;
     est_labels := labels;
     est_coef := coef;
     est_components := components;
     est_explained_variance_ratio := ratio;
     est_feature_names := vocabulary;
     text_repr := λ t, "Text(0.5, 1.0, '" +:+ t +:+ "')" |}.

(** *** A world: two CSV files, a corpus, the bundled iris data *)

(** Four predictors and the response, ten rows. *)
Definition powerplant : table :=
  [[14; 41; 1016; 73; 10]; [25; 62; 1020; 59; 20]; [5; 39; 1012; 92; 30];
   [20; 57; 1010; 76; 40]; [10; 37; 1009; 96; 50]; [26; 59; 1012; 58; 60];
   [15; 43; 1014; 75; 70]; [9; 36; 1018; 80; 80]; [14; 40; 1016; 68; 90];
   [22; 48; 1011; 61; 200]]%Z.

(** A row number, three predictors, the price, one more predictor. *)
Definition diamonds : table :=
  [[1; 23; 61; 55; 326; 4]; [2; 21; 59; 61; 326; 3]; [3; 23; 56; 65; 327; 4];
   [4; 29; 62; 58; 334; 4]; [5; 31; 63; 58; 335; 4]; [6; 24; 62; 57; 336; 3]]%Z.

Definition read (path : string) : exn + table :=
  if bool_decide (path = "data/powerplant.csv") then inr powerplant
  else if bool_decide (path = "data/diamonds.csv") then inr diamonds
  else inl FileNotFoundError.

Definition posts : list string :=
  ["space"; "car"; "god"; "space"; "game"; "car"; "space"].

Definition iris : iris_bunch table column :=
  {| iris_data := [[51; 35; 14; 2]; [49; 30; 14; 2]; [70; 32; 47; 14];
                   [64; 32; 45; 15]; [63; 33; 60; 25]; [58; 27; 51; 19]]%Z;
     iris_target := [0; 0; 1; 1; 2; 2]%Z;
     iris_target_names := ["setosa"; "versicolor"; "virginica"] |}.

(** A world whose random state yields [rng k] at its [k]-th draw. *)
Definition online (rng : nat → seed) : world num table column seed :=
  {| files := read;
     corpus := λ _ _ _, inr {| ng_data := posts |};
     bundled_iris := iris;
     entropy := rng;
     clock := λ k, (100 * Z.of_nat k)%Z |}.

(** The same world with no file, and with a corpus that is neither cached
    nor reachable. *)
Definition offline (rng : nat → seed) : world num table column seed :=
  {| files := λ _, inl FileNotFoundError;
     corpus := λ _ _ _, inl URLError;
     bundled_iris := iris;
     entropy := rng;
     clock := λ k, (100 * Z.of_nat k)%Z |}.

(** The world of [online rng] with another corpus. *)
Definition with_posts (docs : list string) (rng : nat → seed)
  : world num table column seed :=
  {| files := read;
     corpus := λ _ _ _, inr {| ng_data := docs |};
     bundled_iris := iris;
     entropy := rng;
     clock := λ k, (100 * Z.of_nat k)%Z |}.

(** The world of [online rng] with no file. *)
Definition without_files (rng : nat → seed) : world num table column seed :=
  {| files := λ _, inl FileNotFoundError;
     corpus := λ _ _ _, inr {| ng_data := posts |};
     bundled_iris := iris;
     entropy := rng;
     clock := λ k, (100 * Z.of_nat k)%Z |}.

(** Random states: every draw in row order; the second draw reversed. *)
Definition ascending : nat → seed := λ _, seq 0 10.
Definition reshuffled : nat → seed :=
  λ k, if bool_decide (k = 1) then reverse (seq 0 10) else seq 0 10.

(** The folds of [powerplant] under the draw [seq 0 10]. *)
Definition power_folds : folds table column :=
  {| X_train := drop 3 (take 4 <$> powerplant);
     X_test := take 3 (take 4 <$> powerplant);
     y_train := [40; 50; 60; 70; 80; 90; 200]%Z;
     y_test := [10; 20; 30]%Z |}.

(** A kernel holding one fitted NMF model with the given topic rows. *)
Definition the_nmf : estimator := NMF 10 (Some 1%Z) 0.1%Q 0.5%Q.

Definition topics (rows : list (list Z)) : model :=
  {| fitted_as := the_nmf; center := []; intercept := 0; coef := [];
     components := rows; labels := []; ratio := []; vocabulary := [] |}.

Definition holding (md : model) : kernel model :=
  {| heap := {[ 0 := {| obj_class := fitted_as md; obj_fitted := Some md |} ]};
     next_addr := 1; draws := 0; ticks := 0 |}.

End Sample.

(** * Theorems *)

Unset Implicit Arguments.
Unset Contextual Implicit.

(** ** Slices and rankings *)

Lemma slice_rev_top {A} (l : list A) (n : Z) :
  (0 ≤ n)%Z → slice_rev l (- n - 1) = take (Z.to_nat n) (reverse l).
Proof.
  intros Hn. unfold slice_rev, adjust_stop_rev.
  assert (length (reverse l) = length l) as Hlen by apply length_reverse.
  repeat case_match; rewrite ?Z.ltb_lt, ?Z.ltb_ge, ?Z.leb_le, ?Z.leb_gt in *; try lia.
  all: try (rewrite !take_ge by lia; done).
  all: f_equal; lia.
Qed.

Lemma StronglySorted_reverse {A} (R : relation A) l :
  StronglySorted R (reverse l) → StronglySorted (flip R) l.
Proof.
  induction l as [|x l IH]; [constructor|].
  rewrite reverse_cons, StronglySorted_app. intros (Hl & Hrev & _).
  constructor; [auto|].
  apply Forall_forall. intros y Hy. apply Hl; [by apply elem_of_reverse|set_solver].
Qed.

Section Theory.
Context {num table column seed model : Type}.
Context (py : builtins num column).

#[local] Abbreviation prog := (prog num table column).
#[local] Abbreviation call := (call num table column).
#[local] Abbreviation entry := (entry num table column).
#[local] Abbreviation handler := (handler num table column).
#[local] Abbreviation folds := (folds table column).
#[local] Abbreviation world := (world num table column seed).
#[local] Abbreviation numerics := (numerics num table column seed model).
#[local] Abbreviation kernel := (kernel model).

Implicit Types (W : world) (N : numerics).
Implicit Types (P : ∀ X, call X → Prop).

(** The largest entries are the end of an argsort, read backwards. *)
Lemma argsort_top (row : list num) order k :
  is_argsort py row order →
  top_ranking py row (k `min` length row) (take k (reverse order)).
Proof.
  intros [Hperm Hsorted].
  assert (∀ i, i ∈ order ↔ i < length row) as Hin.
  { intros i. rewrite Hperm, elem_of_seq. lia. }
  assert (length order = length row) as Hlen by (by rewrite Hperm, length_seq).
  assert (order = reverse (drop k (reverse order)) ++ reverse (take k (reverse order)))
    as Horder.
  { rewrite <-reverse_app, take_drop. by rewrite reverse_involutive. }
  split.
  - rewrite length_take, length_reverse. lia.
  - eapply sublist_NoDup; [|apply sublist_take].
    rewrite reverse_Permutation, Hperm. apply NoDup_seq.
  - intros i Hi. apply Hin, elem_of_reverse. by eapply subseteq_take.
  - apply StronglySorted_reverse. rewrite Horder in Hsorted.
    by apply StronglySorted_app_1_r in Hsorted.
  - intros i j Hi Hj Hnot. rewrite Horder in Hsorted.
    eapply StronglySorted_app_1_elem_of; [done| |by apply elem_of_reverse].
    apply Hin in Hj. rewrite Horder in Hj.
    apply elem_of_app in Hj as [Hj|Hj]; [done|].
    rewrite elem_of_reverse in Hj. by destruct Hnot.
Qed.

(** ** Runs *)

Lemma run_bind {A B S} (h : handler S) (p : prog A) (k : A → prog B) (s : S) :
  run h (bind p k) s = seq_run (run h p s) (λ a s1, run h (k a) s1).
Proof.
  revert s. induction p as [a|e|X c k' IH]; intros s; simpl.
  - unfold seq_run; simpl. by destruct (run h (k a) s) as [[??]?].
  - done.
  - destruct (h X c s) as [[e|x] s1]; [done|].
    rewrite IH. unfold seq_run, log; simpl.
    destruct (run h (k' x) s1) as [[tr [a|e]] s2]; simpl; done.
Qed.

Lemma run_vis {A S X} (h : handler S) (c : call X) (k : X → prog A) (s : S) :
  run h (Vis c k) s =
    match h _ c s with
    | (inl e, s1) => ([Entry c (inl e)], Raised e, s1)
    | (inr x, s1) => log (Entry c (inr x)) (run h (k x) s1)
    end.
Proof. done. Qed.

Lemma log_inv {A S} (en : entry) (r : list entry * outcome A * S) tr o (s : S) :
  log en r = (tr, o, s) → ∃ tr', tr = en :: tr' ∧ r = (tr', o, s).
Proof. destruct r as [[tr' o'] s']. unfold log; simpl. intros [= <- <- <-]. eauto. Qed.

(** An exception raised by a call ends the run with that exception: the
    failed call is the last entry of the trace. *)
Lemma run_raise_last {A S} (h : handler S) (p : prog A) (s : S) tr o s'
    X (c : call X) e :
  run h p s = (tr, o, s') → Entry c (inl e) ∈ tr →
  o = Raised e ∧ last tr = Some (Entry c (inl e)).
Proof.
  revert s tr. induction p as [a|e0|Y c0 k IH]; intros s tr; simpl.
  - intros [= <- _ _]. by intros ?%elem_of_nil.
  - intros [= <- _ _]. by intros ?%elem_of_nil.
  - destruct (h Y c0 s) as [[e1|x] s1].
    + intros [= <- <- <-]. intros Hin%list_elem_of_singleton. rewrite <-Hin.
      apply (f_equal (@entry_error _ _ _)) in Hin. by simplify_eq/=.
    + unfold log. destruct (run h (k x) s1) as [[tr1 o1] s2] eqn:E; simpl.
      intros [= <- <- <-]. intros Hin%elem_of_cons.
      destruct Hin as [Hin|Hin]; [by apply (f_equal (@entry_error _ _ _)) in Hin|].
      destruct (IH x s1 tr1 E Hin) as [-> Hlast]. split; [done|].
      destruct tr1; [by apply elem_of_nil in Hin|done].
Qed.

Lemma run_index_all {S T} (h : handler S) (l : list T) idx (s : S) :
  run h (index_all l idx) s =
    match mapM (l !!.) idx with
    | Some xs => ([], Done xs, s)
    | None => ([], Raised IndexError, s)
    end.
Proof.
  induction idx as [|i idx IH]; [done|]. simpl.
  rewrite run_bind. unfold index. destruct (l !! i) as [x|]; simpl; [|done].
  unfold seq_run; simpl. rewrite run_bind, IH.
  by destruct (mapM _ idx).
Qed.

(** ** Properties read off the call tree *)

Lemma all_calls_bind {A B} P (p : prog A) (k : A → prog B) :
  all_calls P p → (∀ a, all_calls P (k a)) → all_calls P (bind p k).
Proof. induction 1; simpl; intros; [auto|constructor|constructor; auto]. Qed.

Lemma all_calls_for_each {T} P (l : list T) body :
  (∀ x, all_calls P (body x)) → all_calls P (for_each l body).
Proof.
  intros Hb. induction l; simpl; [constructor|].
  apply all_calls_bind; auto.
Qed.

Lemma all_calls_index {T} P (l : list T) i : all_calls P (index l i).
Proof. unfold index. destruct (l !! i); constructor. Qed.

Lemma all_calls_index_all {T} P (l : list T) idx : all_calls P (index_all l idx).
Proof.
  induction idx; simpl; [constructor|].
  apply all_calls_bind; [apply all_calls_index|intros].
  apply all_calls_bind; [done|constructor].
Qed.

Lemma all_calls_run {A S} P (h : handler S) (p : prog A) (s : S) :
  all_calls P p →
  Forall (λ en, match en with Entry c _ => P _ c end) (run h p s).1.1.
Proof.
  intros Hp. revert s.
  induction Hp as [| |X c k Hc _ IH]; intros s; simpl; [constructor..|].
  destruct (h X c s) as [[e|x] s1]; simpl.
  - by repeat constructor.
  - constructor; [done|apply IH].
Qed.

Lemma yields_vis_eq {A O} (g : ∀ X, call X → option O) X (c : call X)
    (k : X → prog A) l l' :
  l' = option_list (g X c) ++ l → (∀ x, yields g l (k x)) → yields g l' (Vis c k).
Proof. intros ->. apply yields_vis. Qed.

Lemma yields_bind {A B O} (g : ∀ X, call X → option O) l1 l2
    (p : prog A) (k : A → prog B) :
  yields g l1 p → (∀ a, yields g l2 (k a)) → yields g (l1 ++ l2) (bind p k).
Proof.
  induction 1; simpl; intros; [auto|constructor|].
  rewrite <-app_assoc. constructor; auto.
Qed.

Lemma yields_bind_nil {A B O} (g : ∀ X, call X → option O) l
    (p : prog A) (k : A → prog B) :
  yields g [] p → (∀ a, yields g l (k a)) → yields g l (bind p k).
Proof. intros. by apply (yields_bind g [] l). Qed.

Lemma yields_index {T O} (g : ∀ X, call X → option O) (l : list T) i :
  yields g [] (index l i).
Proof. unfold index. destruct (l !! i); constructor. Qed.

Lemma yields_index_all {T O} (g : ∀ X, call X → option O) (l : list T) idx :
  yields g [] (index_all l idx).
Proof.
  induction idx; simpl; [constructor|].
  apply yields_bind_nil; [apply yields_index|intros].
  apply yields_bind_nil; [done|constructor].
Qed.

Lemma yields_for_each {T O} (g : ∀ X, call X → option O) (l : list T) body :
  (∀ x, yields g [] (body x)) → yields g [] (for_each l body).
Proof.
  intros Hb. induction l; simpl; [constructor|]. by apply yields_bind_nil.
Qed.

Lemma yields_run {A S O} (g : ∀ X, call X → option O) l (h : handler S)
    (p : prog A) (s : S) tr a s' :
  yields g l p → run h p s = (tr, Done a, s') → omap (observe g) tr = l.
Proof.
  intros Hp. revert s tr. induction Hp as [|?|X c k l _ IH]; intros s tr; simpl.
  - by intros [= <- ].
  - done.
  - destruct (h X c s) as [[e|x] s1]; [done|].
    unfold log. intros [= <- Ho <-]. simpl.
    destruct (run h (k x) s1) as [[tr1 o] s2] eqn:E; simpl in *; subst.
    apply IH in E. rewrite <-E. by destruct (g X c).
Qed.

Lemma finally_bind {A B} P (p : prog A) (k : A → prog B) :
  (∀ a, finally P (k a)) → finally P (bind p k).
Proof.
  intros Hk. induction p as [a|e|X c k' IH]; simpl; [done|constructor|].
  by apply finally_later.
Qed.

Lemma finally_run {A S} P (h : handler S) (p : prog A) (s : S) tr a s' :
  finally P p → run h p s = (tr, Done a, s') →
  ∃ X (c : call X) r, last tr = Some (Entry c r) ∧ P X c.
Proof.
  intros Hp. revert s tr. induction Hp as [e|X c k Hc Hk|X c k _ IH]; intros s tr; simpl.
  - done.
  - destruct (h X c s) as [[e|x] s1]; [done|].
    destruct (Hk x) as [a' ->]. simpl. unfold log; simpl.
    intros [= <- _ _]. eauto.
  - destruct (h X c s) as [[e|x] s1]; [done|].
    intros (tr1 & -> & E)%log_inv.
    destruct (IH x s1 tr1 E) as (Y & c' & r & Hlast & HP).
    exists Y, c', r. split; [|done]. by destruct tr1.
Qed.

Lemma fit_calls_observe (tr : list entry) :
  fit_calls tr = length (omap (observe (@fit_of num table column)) tr).
Proof.
  unfold fit_calls. induction tr as [|[X c r] tr IH]; [done|]. simpl.
  unfold fit_of. destruct (is_fit c); simpl; by rewrite IH.
Qed.

Lemma fitting_calls_observe (tr : list entry) :
  fitting_calls tr = length (omap (observe (@fitting_of num table column)) tr).
Proof.
  unfold fitting_calls. induction tr as [|[X c r] tr IH]; [done|]. simpl.
  unfold fitting_of. destruct (is_fitting c); simpl; by rewrite IH.
Qed.

Lemma fetch_calls_observe (tr : list entry) :
  fetch_calls tr = length (omap (observe (@fetch_of num table column)) tr).
Proof.
  unfold fetch_calls. induction tr as [|[X c r] tr IH]; [done|]. simpl.
  unfold fetch_of. destruct (is_fetch c); simpl; by rewrite IH.
Qed.

Lemma pipeline_observe (tr : list entry) :
  pipeline tr = omap (observe (@stage_of num table column)) tr.
Proof. unfold pipeline. f_equal. Qed.

(** ** The notebooks' call trees *)

Ltac program :=
  unfold standard_scaling, baseline, standardized, print_rmse,
    topic_modeling, print_elapsed, print_top_words, print_topic,
    clustering_pca;
  cbn [bind perform collect seq]; unfold perform; cbn [bind].

Ltac yield :=
  repeat first
    [ intro
    | apply yields_ret
    | apply yields_index
    | apply yields_index_all
    | apply yields_for_each; intros; cbn [bind]
    | apply yields_bind_nil
    | eapply yields_vis_eq; [reflexivity|] ].

Ltac effects :=
  repeat first
    [ intro
    | apply all_calls_ret
    | apply all_calls_index
    | apply all_calls_index_all
    | apply all_calls_for_each; intros; cbn [bind]
    | apply all_calls_bind
    | apply all_calls_vis;
        [unfold within; cbn [effect_of fit_effect uses_global_rng]; set_solver|] ].

Ltac ending :=
  repeat first
    [ intro
    | apply finally_bind
    | apply finally_last; [reflexivity|by eexists]
    | apply finally_later ].

Lemma standard_scaling_pipeline :
  yields (@stage_of num table column) [Load; Train; Reshape; Train; Reshape]
    (standard_scaling py).
Proof. program. yield. Qed.

Lemma topic_modeling_pipeline :
  yields (@stage_of num table column) [Load; Reshape; Train] (topic_modeling py).
Proof. program. yield. Qed.

Lemma clustering_pca_pipeline :
  yields (@stage_of num table column) [Load; Reshape; Train; Load; Train; Reshape]
    (clustering_pca py).
Proof. program. yield. Qed.

Lemma standard_scaling_fits :
  yields (@fit_of num table column) [(); ()] (standard_scaling py).
Proof. program. yield. Qed.

Lemma topic_modeling_fits :
  yields (@fit_of num table column) [()] (topic_modeling py).
Proof. program. yield. Qed.

Lemma clustering_pca_fits :
  yields (@fit_of num table column) [(); ()] (clustering_pca py).
Proof. program. yield. Qed.

Lemma standard_scaling_fittings :
  yields (@fitting_of num table column) [(); (); ()] (standard_scaling py).
Proof. program. yield. Qed.

Lemma topic_modeling_fittings :
  yields (@fitting_of num table column) [(); ()] (topic_modeling py).
Proof. program. yield. Qed.

Lemma clustering_pca_fittings :
  yields (@fitting_of num table column) [(); ()] (clustering_pca py).
Proof. program. yield. Qed.

Lemma topic_modeling_fetches :
  yields (@fetch_of num table column) [()] (topic_modeling py).
Proof. program. yield. Qed.

Lemma standard_scaling_effects :
  all_calls (@within num table column
               [ReadsLocalFile "data/powerplant.csv"; DrawsRandom; WritesConsole; InMemory])
    (standard_scaling py).
Proof. program. effects. Qed.

Lemma topic_modeling_effects :
  all_calls (@within num table column [FetchesCorpus; ReadsClock; WritesConsole; InMemory])
    (topic_modeling py).
Proof. program. effects. Qed.

Lemma clustering_pca_effects :
  all_calls (@within num table column
               [ReadsLocalFile "data/diamonds.csv"; LoadsBundled; DrawsRandom;
                WritesConsole; DrawsPlot; InMemory])
    (clustering_pca py).
Proof. program. effects. Qed.

Lemma standard_scaling_ends :
  finally (λ X (c : call X), is_output c = true) (standard_scaling py).
Proof. program. ending. Qed.

Lemma topic_modeling_ends :
  finally (λ X (c : call X), is_output c = true) (topic_modeling py).
Proof. program. ending. Qed.

Lemma clustering_pca_ends :
  finally (λ X (c : call X), is_output c = true) (clustering_pca py).
Proof. program. ending. Qed.

(** ** Runs of the notebooks against the reference handler *)

Ltac kernel_simpl E :=
  repeat progress
    (cbn [fst snd heap next_addr draws ticks with_heap allocate drawn ticked addr
          mbind option_bind obj_fitted from_option] in E;
     repeat first
       [ rewrite lookup_insert_eq in E
       | rewrite lookup_insert_ne in E by lia ]).

(** What an answer of the handler says about the numerics and the kernel. *)
Ltac answer E :=
  cbn [sklearn] in E;
  unfold fit_object, and_then, method, attribute, fitted in E;
  cbn [uses_global_rng] in E; kernel_simpl E;
  repeat (match type of E with
          | context [match ?x with _ => _ end] =>
              lazymatch x with
              | context [match _ with _ => _ end] => fail
              | _ => destruct x eqn:?
              end
          end; cbn beta iota in E; kernel_simpl E);
  simplify_eq.

(** One call of a completed run. *)
Ltac next_call H :=
  match type of H with
  | match ?x with _ => _ end = _ =>
      let E := fresh "E" in
      destruct x as [[?|?] ?] eqn:E; [discriminate H|];
      apply log_inv in H as (? & -> & H)
  end.

Ltac step H :=
  match type of H with
  | match ?x with _ => _ end = _ =>
      let E := fresh "E" in
      destruct x as [[?|?] ?] eqn:E; [discriminate H|];
      apply log_inv in H as (? & -> & H);
      answer E
  end.

Ltac start H := cbn [bind perform] in H; unfold perform in H; cbn [bind run] in H.

Lemma run_standardized W N (f : folds) (s : kernel) tr s' :
  run (sklearn W N) (standardized py f) s = (tr, Done (), s') →
  ∃ stats X_train_ss X_test_ss lm y_pred mse,
    est_fit N StandardScaler None (X_train f) None = inr stats ∧
    est_transform N stats (X_train f) = inr X_train_ss ∧
    est_fit N LinearRegression None X_train_ss (Some (y_train f)) = inr lm ∧
    est_transform N stats (X_test f) = inr X_test_ss ∧
    est_predict N lm X_test_ss = inr y_pred ∧
    mean_squared_error N (y_test f) y_pred = inr mse ∧
    tr = [Entry (New StandardScaler) (inr (Ref (next_addr s)));
          Entry (FitTransform (@Ref StandardScaler (next_addr s)) (X_train f))
            (inr X_train_ss);
          Entry (New LinearRegression) (inr (Ref (S (next_addr s))));
          Entry (Fit (@Ref LinearRegression (S (next_addr s))) X_train_ss
                   (Some (y_train f)))
            (inr (Ref (S (next_addr s))));
          Entry (Transform (@Ref StandardScaler (next_addr s)) (X_test f))
            (inr X_test_ss);
          Entry (Predict (@Ref LinearRegression (S (next_addr s))) X_test_ss)
            (inr y_pred);
          Entry (MeanSquaredError (y_test f) y_pred) (inr mse);
          Entry (Sqrt mse) (inr (np_sqrt N mse));
          Entry (Print ("RMSE " +:+ fmt_float py "%f" (np_sqrt N mse))) (inr ());
          Entry (Coef (@Ref LinearRegression (S (next_addr s)))) (inr (est_coef N lm));
          Entry (Display (repr_column py (est_coef N lm))) (inr ())] ∧
    s' = {| heap := <[S (next_addr s) :=
                       {| obj_class := LinearRegression; obj_fitted := Some lm |}]>
                      (<[next_addr s :=
                          {| obj_class := StandardScaler; obj_fitted := Some stats |}]>
                         (heap s));
            next_addr := S (S (next_addr s));
            draws := draws s; ticks := ticks s |}.
Proof.
  intros H. unfold standardized, print_rmse in H. start H.
  do 11 step H. simplify_eq.
  eexists _, _, _, _, _, _. repeat split; try done.
  unfold with_heap, allocate; cbn. by rewrite !insert_insert_eq.
Qed.

Lemma run_baseline W N (f : folds) (s : kernel) tr s' :
  run (sklearn W N) (baseline py f) s = (tr, Done (), s') →
  ∃ lm y_pred mse,
    est_fit N LinearRegression None (X_train f) (Some (y_train f)) = inr lm ∧
    est_predict N lm (X_test f) = inr y_pred ∧
    mean_squared_error N (y_test f) y_pred = inr mse ∧
    tr = [Entry (New LinearRegression) (inr (Ref (next_addr s)));
          Entry (Fit (@Ref LinearRegression (next_addr s)) (X_train f)
                   (Some (y_train f)))
            (inr (Ref (next_addr s)));
          Entry (Predict (@Ref LinearRegression (next_addr s)) (X_test f))
            (inr y_pred);
          Entry (MeanSquaredError (y_test f) y_pred) (inr mse);
          Entry (Sqrt mse) (inr (np_sqrt N mse));
          Entry (Print ("RMSE " +:+ fmt_float py "%f" (np_sqrt N mse))) (inr ());
          Entry (Coef (@Ref LinearRegression (next_addr s))) (inr (est_coef N lm));
          Entry (Print (str_column py (est_coef N lm))) (inr ())] ∧
    s' = {| heap := <[next_addr s :=
                       {| obj_class := LinearRegression; obj_fitted := Some lm |}]>
                      (heap s);
            next_addr := S (next_addr s);
            draws := draws s; ticks := ticks s |}.
Proof.
  intros H. unfold baseline, print_rmse in H. start H.
  do 8 step H. simplify_eq.
  eexists _, _, _. repeat split; try done.
  unfold with_heap, allocate; cbn. by rewrite !insert_insert_eq.
Qed.

(** The notebook: the file is read and cut into predictors and response;
    the two regressions run on two splits, answered from two successive
    draws of the global random state. *)
Lemma run_standard_scaling W N (s : kernel) tr s' :
  run (sklearn W N) (standard_scaling py) s = (tr, Done (), s') →
  ∃ df X y f1 f2 tr1 tr2 s1,
    files W "data/powerplant.csv" = inr df ∧
    pd_iloc_cols_before N df 4 = inr X ∧
    pd_iloc_col N df 4 = inr y ∧
    train_test_split N (entropy W (draws s)) X y 0.3%Q = inr f1 ∧
    train_test_split N (entropy W (S (draws s))) X y 0.3%Q = inr f2 ∧
    run (sklearn W N) (baseline py f1) (drawn s) = (tr1, Done (), s1) ∧
    run (sklearn W N) (standardized py f2) (drawn s1) = (tr2, Done (), s') ∧
    tr = [Entry (ReadCsv "data/powerplant.csv") (inr df);
          Entry (IlocColsBefore df 4) (inr X);
          Entry (IlocCol df 4) (inr y);
          Entry (TrainTestSplit X y 0.3%Q) (inr f1)]
         ++ tr1 ++ [Entry (TrainTestSplit X y 0.3%Q) (inr f2)] ++ tr2.
Proof.
  intros H. unfold standard_scaling in H. start H.
  do 4 step H.
  rewrite run_bind in H. unfold seq_run in H.
  match type of H with
  | context [run (sklearn W N) (baseline py ?f) ?s0] =>
      destruct (run (sklearn W N) (baseline py f) s0) as [[tr1 [[]|e]] s1] eqn:Hb
  end; cbn [fst snd] in H; [|discriminate H].
  cbn [run] in H.
  match type of H with
  | context [match ?x with _ => _ end] =>
      destruct x as [[?|?] ?] eqn:E; [discriminate H|]
  end.
  answer E.
  match goal with
  | |- context [run (sklearn W N) (standardized py ?f) ?s0] =>
      destruct (run (sklearn W N) (standardized py f) s0) as [[tr2 o] s2] eqn:Hs
  end.
  unfold log in *. cbn [fst snd] in *. subst o.
  pose proof Hb as Hb'. apply run_baseline in Hb' as (? & ? & ? & _ & _ & _ & _ & ->).
  eexists _, _, _, _, _, _, _, _. repeat split; try done.
Qed.

(** ** [print_top_words] *)

Lemma run_print_topic W N names n k (row : list num) (s : kernel) :
  run (sklearn W N) (print_topic names n k row) s =
    match mapM (names !!.) (selected N n row) with
    | Some ws =>
        ([Entry (Argsort row) (inr (np_argsort N row));
          Entry (Print (topic_line k ws)) (inr ())], Done (), s)
    | None => ([Entry (Argsort row) (inr (np_argsort N row))], Raised IndexError, s)
    end.
Proof.
  unfold print_topic. simpl. rewrite run_bind, run_index_all. unfold selected.
  by destruct (mapM _ _).
Qed.

Lemma run_print_topics W N names n (rows : list (list num)) k (s : kernel) :
  let r := run (sklearn W N)
             (for_each (enumerate_from k rows)
                (λ it, print_topic names n it.1 it.2)) s in
  r.2 = s ∧
  match mapM (mapM (names !!.)) (selected N n <$> rows) with
  | Some words =>
      r.1.2 = Done () ∧ console r.1.1 = imap (λ i, topic_line (k + i)) words
  | None => r.1.2 = Raised IndexError
  end.
Proof.
  revert k. induction rows as [|row rows IH]; intros k; [done|].
  cbn [for_each enumerate_from fst snd fmap list_fmap].
  rewrite run_bind, run_print_topic. cbn [mapM].
  destruct (mapM _ (selected N n row)) as [ws|]; simpl; [|done].
  unfold seq_run; simpl. specialize (IH (S k)).
  destruct (run _ _ s) as [[tr o] s1]; simpl in *. destruct IH as [-> IH].
  split; [done|].
  destruct (mapM _ (selected N n <$> rows)) as [words|]; simpl; [|done].
  destruct IH as [-> ->]. split; [done|].
  rewrite Nat.add_0_r. f_equal. apply imap_ext. intros i x _. simpl. f_equal. lia.
Qed.

(** ** The topic-modelling notebook, step by step *)

Lemma topic_modeling_flow {S} (h : handler S) (s : S) tr s' :
  run h (topic_modeling py) s = (tr, Done (), s') →
  ∃ dataset vectorizer tfidf unfitted nmf names pre1 pre2 pre3 pre4 top s1,
    tr = pre1
         ++ Entry (Fetch20Newsgroups true 1 ["headers"; "footers"; "quotes"])
              (inr dataset)
         :: pre2
         ++ Entry (FitTransformText vectorizer (take n_samples (ng_data dataset)))
              (inr tfidf)
         :: pre3
         ++ Entry (Fit unfitted tfidf None) (inr nmf)
         :: pre4 ++ top ∧
    Entry (New (TfidfVectorizer 0.95 2 n_features "english")) (inr vectorizer) ∈ pre2 ∧
    Entry (New (NMF n_components (Some 1%Z) 0.1 0.5)) (inr unfitted) ∈ pre3 ∧
    Entry (GetFeatureNames vectorizer) (inr names) ∈ pre4 ∧
    pipeline (pre1 ++ pre2 ++ pre3 ++ pre4) = [] ∧
    run h (print_top_words nmf names n_top_words) s1 = (top, Done (), s').
Proof.
  intros H. unfold topic_modeling, print_elapsed in H. start H.
  do 20 next_call H.
  unfold index in H.
  match type of H with context [?l !! 0] => destruct (l !! 0) end;
    cbn [bind run] in H; [|discriminate H].
  do 2 next_call H.
  match type of H with context [?l !! 0] => destruct (l !! 0) end;
    cbn [bind run] in H; [|discriminate H].
  do 2 next_call H.
  eexists _, _, _, _, _, _.
  eexists [_; _], [_; _; _; _; _], [_; _; _; _; _], [_; _; _; _; _; _; _; _; _], _, _.
  split; [reflexivity|].
  split; [repeat first [apply list_elem_of_here|apply list_elem_of_further]|].
  split; [repeat first [apply list_elem_of_here|apply list_elem_of_further]|].
  split; [repeat first [apply list_elem_of_here|apply list_elem_of_further]|].
  split; [reflexivity|]. done.
Qed.

(** ** The claims *)

(** C1.  In the standard-scaling notebook the scaler fitted on the training
    fold is reused, unmodified, for the test fold.  On every completed run of
    In[2]-In[4] on folds [f]: the statistics [stats] are computed by
    [ss.fit_transform] from [X_train f] alone; the only calls between that
    fit and [ss.transform(X_test)] construct and fit the regression [lr],
    another object; [ss.transform] answers with [stats] applied to
    [X_test f]; [ss] still holds [stats] when the run ends; and a run on any
    other folds with the same training features leaves the same statistics
    in [ss], whatever its test fold. *)
Theorem scaler_reused_unmodified W N (f : folds) (s : kernel) tr s' :
  run (sklearn W N) (standardized py f) s = (tr, Done (), s') →
  let ss : ref StandardScaler := Ref (next_addr s) in
  let lr : ref LinearRegression := Ref (S (next_addr s)) in
  ∃ stats X_train_ss X_test_ss rest,
    est_fit N StandardScaler None (X_train f) None = inr stats ∧
    est_transform N stats (X_train f) = inr X_train_ss ∧
    est_transform N stats (X_test f) = inr X_test_ss ∧
    tr = Entry (New StandardScaler) (inr ss)
         :: Entry (FitTransform ss (X_train f)) (inr X_train_ss)
         :: Entry (New LinearRegression) (inr lr)
         :: Entry (Fit lr X_train_ss (Some (y_train f))) (inr lr)
         :: Entry (Transform ss (X_test f)) (inr X_test_ss)
         :: rest ∧
    fitted ss s' = Some stats ∧
    ∀ f' tr' s'',
      X_train f' = X_train f →
      run (sklearn W N) (standardized py f') s = (tr', Done (), s'') →
      fitted ss s'' = Some stats.
Proof.
  intros H ss lr.
  apply run_standardized in H
    as (stats & Xtr & Xte & lm & yp & mse & Hfit & Htr & Hlm & Hte & _ & _ & -> & ->).
  exists stats, Xtr, Xte. eexists. repeat split; try done.
  - unfold fitted; cbn. rewrite lookup_insert_ne by lia. by rewrite lookup_insert_eq.
  - intros f' tr' s'' Heq H'.
    apply run_standardized in H'
      as (stats' & ? & ? & ? & ? & ? & Hfit' & _ & _ & _ & _ & _ & _ & ->).
    rewrite Heq, Hfit in Hfit'. simplify_eq.
    unfold fitted; cbn. rewrite lookup_insert_ne by lia. by rewrite lookup_insert_eq.
Qed.

(** C2, amended.  Every notebook acquires its data first, calls a stock
    estimator's [fit] or [fit_predict] and ends by printing.  A completed run
    makes one such call in the topic-modelling notebook ([NMF.fit]) and two
    in each of the others: [LinearRegression.fit] on the raw and on the
    standardized features, and [KMeans.fit_predict] and [PCA.fit].  With the
    [fit_transform] calls of the scaler and of the vectorizer counted as
    well, the numbers are three, two and two. *)
Theorem fit_calls_per_notebook {S} (h : handler S) (s : S) tr s' :
  let shape (fits fittings : nat) :=
    fit_calls tr = fits ∧ fitting_calls tr = fittings ∧
    head (pipeline tr) = Some Load ∧
    ∃ en, last tr = Some en ∧ entry_is_output en = true in
  (run h (standard_scaling py) s = (tr, Done (), s') → shape 2 3) ∧
  (run h (topic_modeling py) s = (tr, Done (), s') → shape 1 2) ∧
  (run h (clustering_pca py) s = (tr, Done (), s') → shape 2 2).
Proof.
  intros shape. subst shape.
  split; [|split]; intros H; (split; [|split; [|split]]).
  - rewrite fit_calls_observe.
    by erewrite (yields_run _ _ h _ s tr); [|apply standard_scaling_fits|exact H].
  - rewrite fitting_calls_observe.
    by erewrite (yields_run _ _ h _ s tr); [|apply standard_scaling_fittings|exact H].
  - rewrite pipeline_observe.
    by erewrite (yields_run _ _ h _ s tr); [|apply standard_scaling_pipeline|exact H].
  - destruct (finally_run _ h _ s tr () s' standard_scaling_ends H)
      as (X & c & r & Hlast & Hout). eexists; split; [exact Hlast|exact Hout].
  - rewrite fit_calls_observe.
    by erewrite (yields_run _ _ h _ s tr); [|apply topic_modeling_fits|exact H].
  - rewrite fitting_calls_observe.
    by erewrite (yields_run _ _ h _ s tr); [|apply topic_modeling_fittings|exact H].
  - rewrite pipeline_observe.
    by erewrite (yields_run _ _ h _ s tr); [|apply topic_modeling_pipeline|exact H].
  - destruct (finally_run _ h _ s tr () s' topic_modeling_ends H)
      as (X & c & r & Hlast & Hout). eexists; split; [exact Hlast|exact Hout].
  - rewrite fit_calls_observe.
    by erewrite (yields_run _ _ h _ s tr); [|apply clustering_pca_fits|exact H].
  - rewrite fitting_calls_observe.
    by erewrite (yields_run _ _ h _ s tr); [|apply clustering_pca_fittings|exact H].
  - rewrite pipeline_observe.
    by erewrite (yields_run _ _ h _ s tr); [|apply clustering_pca_pipeline|exact H].
  - destruct (finally_run _ h _ s tr () s' clustering_pca_ends H)
      as (X & c & r & Hlast & Hout). eexists; split; [exact Hlast|exact Hout].
Qed.

(** C5.  No notebook catches an exception: when a library call of a run of
    any of the three notebooks raises, the run ends with exactly that
    exception and the failed call is the last one made.  In particular a
    failing [pd.read_csv] is the only call of its run, and a failing
    [fetch_20newsgroups] comes after the first progress line and before
    anything else. *)
Theorem library_errors_propagate {S} (h : handler S) (s : S) :
  (∀ nb tr o s' X (c : call X) e,
      nb ∈ notebooks py →
      run h nb s = (tr, o, s') →
      Entry c (inl e) ∈ tr →
      o = Raised e ∧ last tr = Some (Entry c (inl e))) ∧
  (∀ e s1,
      h _ (ReadCsv "data/powerplant.csv") s = (inl e, s1) →
      run h (standard_scaling py) s
        = ([Entry (ReadCsv "data/powerplant.csv") (inl e)], Raised e, s1)) ∧
  (∀ e s1,
      h _ (ReadCsv "data/diamonds.csv") s = (inl e, s1) →
      run h (clustering_pca py) s
        = ([Entry (ReadCsv "data/diamonds.csv") (inl e)], Raised e, s1)) ∧
  (∀ tr o s' e,
      run h (topic_modeling py) s = (tr, o, s') →
      Entry (Fetch20Newsgroups true 1 ["headers"; "footers"; "quotes"]) (inl e) ∈ tr →
      o = Raised e ∧ console tr = ["Loading dataset..."] ∧ pipeline tr = [Load]).
Proof.
  split; [|split; [|split]].
  - intros nb tr o s' X c e _. apply run_raise_last.
  - intros e s1 E. unfold standard_scaling.
    cbn [bind perform]. unfold perform. cbn [bind run]. by rewrite E.
  - intros e s1 E. unfold clustering_pca.
    cbn [bind perform]. unfold perform. cbn [bind run]. by rewrite E.
  - intros tr o s' e H Hin.
    destruct (run_raise_last h _ s tr o s' _ _ e H Hin) as [-> Hlast].
    split; [done|].
    unfold topic_modeling, print_elapsed, print_top_words, print_topic in H.
    cbn [bind perform] in H. unfold perform in H. cbn [bind] in H.
    rewrite run_vis in H.
    destruct (h _ _ s) as [[e0|[]] s0]; [simplify_eq|].
    rewrite run_vis in H.
    destruct (h _ _ s0) as [[e0|t0] s1].
    { unfold log in H. cbn [fst snd] in H. simplify_eq. }
    rewrite run_vis in H.
    destruct (h _ _ s1) as [[e0|dataset] s2].
    { unfold log in H. cbn [fst snd] in H. by simplify_eq. }
    exfalso.
    match type of H with
    | log _ (log _ (log _ (run h ?p ?s3))) = _ =>
        assert (all_calls (@within num table column [ReadsClock; WritesConsole; InMemory]) p)
          as Hrest by (cbn beta; effects);
        apply (all_calls_run _ h _ s3) in Hrest;
        destruct (run h p s3) as [[rest o'] s4]
    end.
    unfold log in H. cbn [fst snd] in *. simplify_eq.
    cbn [last] in Hlast.
    assert (Entry (Fetch20Newsgroups true 1 ["headers"; "footers"; "quotes"]) (inl e)
              ∈ rest) as Hin'.
    { destruct rest as [|en rest]; [done|]. eapply list_elem_of_lookup_2.
      rewrite <-last_lookup. exact Hlast. }
    rewrite Forall_forall in Hrest. apply Hrest in Hin'.
    unfold within in Hin'. cbn in Hin'.
    rewrite !elem_of_cons, elem_of_nil in Hin'.
    by destruct Hin' as [?|[?|[?|[]]]].
Qed.

Ltac places :=
  repeat (apply Forall_cons; split;
          [cbn [reads writes]; split; intros x;
           rewrite ?elem_of_cons, ?elem_of_nil; tauto|]);
  apply Forall_nil_2.

(** The places a run reaches follow from the kinds of its calls. *)
Lemma reaches_of_kinds (kinds : list effect) (sources sinks : list place)
    (tr : list entry) :
  Forall (λ ef, reads ef ⊆ sources ∧ writes ef ⊆ sinks) kinds →
  Forall (λ en, entry_effect en ∈ kinds) tr →
  Forall (λ en, entry_effect en ∈ kinds ∧
                reads (entry_effect en) ⊆ sources ∧
                writes (entry_effect en) ⊆ sinks) tr.
Proof.
  intros Hkinds Htr. eapply Forall_impl; [exact Htr|]. intros en Hen.
  split; [exact Hen|]. rewrite Forall_forall in Hkinds. by apply Hkinds.
Qed.

(** C6, amended.  The notebooks exchange data with the outside through
    library calls of these kinds only, which reach these places.  The
    standard-scaling notebook reads the CSV file [data/powerplant.csv],
    draws from the global random state and writes to the console.  The
    topic-modelling notebook calls [fetch_20newsgroups], reads the clock
    and writes to the console; a completed run makes the fetch exactly
    once, and the fetch, called with the library's default [data_home] and
    [download_if_missing], reads the environment variable
    [SCIKIT_LEARN_DATA], reads and writes the library's data directory (it
    creates the directory and keeps its cache there) and uses the network
    when the cache lacks the corpus.  The clustering and PCA notebook reads
    the CSV file [data/diamonds.csv], loads the iris data shipped with the
    library, draws from the global random state, writes to the console and
    draws plots.  Every other call takes its data from its arguments and
    returns it as a value. *)
Theorem effects_per_notebook {S} (h : handler S) (s : S) :
  let reaches (kinds : list effect) (sources sinks : list place)
      (tr : list entry) :=
    Forall (λ en, entry_effect en ∈ kinds ∧
                  reads (entry_effect en) ⊆ sources ∧
                  writes (entry_effect en) ⊆ sinks) tr in
  reaches [ReadsLocalFile "data/powerplant.csv"; DrawsRandom; WritesConsole; InMemory]
    [LocalFile "data/powerplant.csv"; GlobalRandomState]
    [Console]
    (run h (standard_scaling py) s).1.1 ∧
  reaches [FetchesCorpus; ReadsClock; WritesConsole; InMemory]
    [EnvironmentVariable "SCIKIT_LEARN_DATA"; DataHome; Network; SystemClock]
    [DataHome; Console]
    (run h (topic_modeling py) s).1.1 ∧
  reaches [ReadsLocalFile "data/diamonds.csv"; LoadsBundled; DrawsRandom;
           WritesConsole; DrawsPlot; InMemory]
    [LocalFile "data/diamonds.csv"; PackageData; GlobalRandomState]
    [Console; Figure]
    (run h (clustering_pca py) s).1.1 ∧
  (∀ tr s', run h (topic_modeling py) s = (tr, Done (), s') → fetch_calls tr = 1).
Proof.
  intros reaches. subst reaches. cbn beta.
  split; [|split; [|split]].
  - apply reaches_of_kinds.
    + places.
    + eapply Forall_impl; [apply all_calls_run, standard_scaling_effects|].
      by intros [X c r].
  - apply reaches_of_kinds.
    + places.
    + eapply Forall_impl; [apply all_calls_run, topic_modeling_effects|].
      by intros [X c r].
  - apply reaches_of_kinds.
    + places.
    + eapply Forall_impl; [apply all_calls_run, clustering_pca_effects|].
      by intros [X c r].
  - intros tr s' H. rewrite fetch_calls_observe.
    by erewrite (yields_run _ _ h _ s tr); [|apply topic_modeling_fetches|exact H].
Qed.

(** C7, amended.  The topic-modelling notebook runs in the order load,
    vectorize, factorize, print ranked terms, and each step takes what the
    step before it produced: [fetch_20newsgroups] answers [dataset];
    [TfidfVectorizer.fit_transform] is called on the first [n_samples]
    documents of [dataset] and answers [tfidf]; [NMF.fit] is called on
    [tfidf] and answers [nmf]; [print_top_words] is called last, on [nmf]
    and on the feature names of the same vectorizer.  No other call of the
    run loads, transforms or fits.  The other two notebooks are linear
    scripts as well, in another order: load, fit, transform, fit, transform
    in the standard-scaling notebook, and load, transform, fit, load, fit,
    transform in the clustering and PCA notebook. *)
Theorem pipeline_per_notebook {S} (h : handler S) (s : S) tr s' :
  (run h (topic_modeling py) s = (tr, Done (), s') →
   pipeline tr = [Load; Reshape; Train] ∧
   ∃ dataset vectorizer tfidf unfitted nmf names pre1 pre2 pre3 pre4 top s1,
     tr = pre1
          ++ Entry (Fetch20Newsgroups true 1 ["headers"; "footers"; "quotes"])
               (inr dataset)
          :: pre2
          ++ Entry (FitTransformText vectorizer (take n_samples (ng_data dataset)))
               (inr tfidf)
          :: pre3
          ++ Entry (Fit unfitted tfidf None) (inr nmf)
          :: pre4 ++ top ∧
     Entry (New (TfidfVectorizer 0.95 2 n_features "english")) (inr vectorizer)
       ∈ pre2 ∧
     Entry (New (NMF n_components (Some 1%Z) 0.1 0.5)) (inr unfitted) ∈ pre3 ∧
     Entry (GetFeatureNames vectorizer) (inr names) ∈ pre4 ∧
     run h (print_top_words nmf names n_top_words) s1 = (top, Done (), s')) ∧
  (run h (standard_scaling py) s = (tr, Done (), s') →
   pipeline tr = [Load; Train; Reshape; Train; Reshape]) ∧
  (run h (clustering_pca py) s = (tr, Done (), s') →
   pipeline tr = [Load; Reshape; Train; Load; Train; Reshape]).
Proof.
  split; [|split]; intros H.
  - split.
    + rewrite pipeline_observe.
      by erewrite (yields_run _ _ h _ s tr); [|apply topic_modeling_pipeline|exact H].
    + apply topic_modeling_flow in H
        as (dataset & vectorizer & tfidf & unfitted & nmf & names & pre1 & pre2
            & pre3 & pre4 & top & s1 & -> & ? & ? & ? & _ & ?).
      by exists dataset, vectorizer, tfidf, unfitted, nmf, names, pre1, pre2, pre3,
        pre4, top, s1.
  - rewrite pipeline_observe.
    by erewrite (yields_run _ _ h _ s tr); [|apply standard_scaling_pipeline|exact H].
  - rewrite pipeline_observe.
    by erewrite (yields_run _ _ h _ s tr); [|apply clustering_pca_pipeline|exact H].
Qed.

(** C9, amended.  For a fitted [model], [n_top_words >= 0] and an [argsort]
    that answers with the positions by ascending weight:
    [print_top_words(model, feature_names, n_top_words)] selects from every
    topic row the positions of its [min(n_top_words, width)] largest
    entries, by non-increasing weight; if every row is at most as long as
    [feature_names] the indexing succeeds; when every selected position is
    valid in [feature_names] it prints, for each topic in turn, the line
    ["Topic #k: "] followed by the selected names separated by spaces, and
    then an empty line; otherwise it raises [IndexError].  A vocabulary
    shorter than the rows makes the indexing fail only if a selected
    position lies beyond it. *)
Theorem print_top_words_ranks W N {e} (m : ref e) md names (n : Z) (s : kernel) :
  fitted m s = Some md →
  (0 ≤ n)%Z →
  Forall (λ row, is_argsort py row (np_argsort N row)) (est_components N md) →
  let tops := selected N n <$> est_components N md in
  let r := run (sklearn W N) (print_top_words m names n) s in
  Forall2 (λ row sel, top_ranking py row (Z.to_nat n `min` length row) sel)
    (est_components N md) tops ∧
  (Forall (λ row, length row ≤ length names) (est_components N md) →
   is_Some (mapM (mapM (names !!.)) tops)) ∧
  match mapM (mapM (names !!.)) tops with
  | Some words => r.1.2 = Done () ∧ console r.1.1 = imap topic_line words ++ [""]
  | None => r.1.2 = Raised IndexError
  end.
Proof.
  intros Hfit Hn Hsort tops r.
  assert (Forall (λ row, top_ranking py row (Z.to_nat n `min` length row)
                           (selected N n row)) (est_components N md)) as Hrank.
  { eapply Forall_impl; [done|]. intros row Hrow. unfold selected.
    rewrite slice_rev_top by done. by apply argsort_top. }
  split; [|split].
  - subst tops. by apply Forall2_fmap_r, Forall_Forall2_diag.
  - intros Hwide. apply mapM_is_Some, Forall_forall. intros sel Hsel.
    subst tops. apply list_elem_of_fmap in Hsel as (row & -> & Hrow).
    apply mapM_is_Some, Forall_forall. intros i Hi.
    apply lookup_lt_is_Some.
    rewrite Forall_forall in Hrank, Hwide.
    pose proof (top_valid (Hrank row Hrow) Hi). pose proof (Hwide row Hrow). lia.
  - subst r. unfold print_top_words. simpl. unfold attribute. rewrite Hfit. simpl.
    unfold log; simpl.
    rewrite run_bind.
    pose proof (run_print_topics W N names n (est_components N md) 0 s) as Hloop.
    simpl in Hloop. unfold seq_run.
    destruct (run _ _ s) as [[tr o] s1]; simpl in *. destruct Hloop as [-> Hloop].
    fold tops in Hloop.
    destruct (mapM _ tops) as [words|]; simpl.
    + destruct Hloop as [-> Hc]. simpl. split; [done|].
      unfold console in *. simpl. by rewrite omap_app, Hc.
    + by rewrite Hloop.
Qed.

(** C10.  The two RMSE lines of the standard-scaling notebook come from two
    splits drawn one after the other from the global random state, no seed
    being given: on a completed run the first line is the RMSE of the raw
    regression on the folds of draw number [draws s], and the last line is
    the RMSE of the standardized regression on the folds of the next draw.
    The output is therefore not a function of the file: another run on the
    same CSV whose second draw yields folds with another formatted RMSE
    prints something else. *)
Theorem rmse_follows_unseeded_split W N (s : kernel) tr s' :
  run (sklearn W N) (standard_scaling py) s = (tr, Done (), s') →
  ∃ df X y f1 f2 r1 r2 coefs,
    files W "data/powerplant.csv" = inr df ∧
    pd_iloc_cols_before N df 4 = inr X ∧
    pd_iloc_col N df 4 = inr y ∧
    train_test_split N (entropy W (draws s)) X y 0.3%Q = inr f1 ∧
    train_test_split N (entropy W (S (draws s))) X y 0.3%Q = inr f2 ∧
    baseline_rmse N f1 = inr r1 ∧
    standardized_rmse N f2 = inr r2 ∧
    console tr = ["RMSE " +:+ fmt_float py "%f" r1; coefs;
                  "RMSE " +:+ fmt_float py "%f" r2] ∧
    ∀ W' tr' s'' f2' r2',
      files W' "data/powerplant.csv" = inr df →
      run (sklearn W' N) (standard_scaling py) s = (tr', Done (), s'') →
      train_test_split N (entropy W' (S (draws s))) X y 0.3%Q = inr f2' →
      standardized_rmse N f2' = inr r2' →
      fmt_float py "%f" r2' ≠ fmt_float py "%f" r2 →
      console tr' ≠ console tr.
Proof.
  intros H.
  apply run_standard_scaling in H
    as (df & X & y & f1 & f2 & tr1 & tr2 & s1 & Hdf & HX & Hy & Hf1 & Hf2 & Hb & Hs & ->).
  apply run_baseline in Hb as (lm1 & yp1 & mse1 & Hlm1 & Hyp1 & Hmse1 & -> & ->).
  apply run_standardized in Hs
    as (stats & Xtr & Xte & lm2 & yp2 & mse2 & Hst & Htr & Hlm2 & Hte & Hyp2 & Hmse2
        & -> & _).
  assert (standardized_rmse N f2 = inr (np_sqrt N mse2)) as Hr2.
  { unfold standardized_rmse, regression_rmse.
    rewrite Hst; cbn [and_then]. rewrite Htr; cbn [and_then]. rewrite Hte; cbn [and_then].
    rewrite Hlm2; cbn [and_then]. rewrite Hyp2; cbn [and_then]. by rewrite Hmse2. }
  exists df, X, y, f1, f2, (np_sqrt N mse1), (np_sqrt N mse2), (str_column py (est_coef N lm1)).
  repeat split; try done.
  - unfold baseline_rmse, regression_rmse.
    rewrite Hlm1; cbn [and_then]. rewrite Hyp1; cbn [and_then]. by rewrite Hmse1.
  - intros W' tr' s'' f2' r2' Hdf' H' Hf2' Hr2' Hne.
    apply run_standard_scaling in H'
      as (df' & X' & y' & g1 & g2 & u1 & u2 & t1 & Hdf'' & HX' & Hy' & _ & Hg2 & Hb' & Hs' & ->).
    rewrite Hdf' in Hdf''. injection Hdf'' as <-.
    rewrite HX in HX'. injection HX' as <-.
    rewrite Hy in Hy'. injection Hy' as <-.
    rewrite Hf2' in Hg2. injection Hg2 as <-.
    apply run_baseline in Hb' as (? & ? & ? & _ & _ & _ & -> & ->).
    apply run_standardized in Hs'
      as (stats' & Xtr' & Xte' & lm' & yp' & mse' & Hst' & Htr' & Hlm' & Hte' & Hyp' & Hmse'
          & -> & _).
    assert (r2' = np_sqrt N mse') as ->.
    { unfold standardized_rmse, regression_rmse in Hr2'.
      rewrite Hst' in Hr2'; cbn [and_then] in Hr2'. rewrite Htr' in Hr2'; cbn [and_then] in Hr2'.
      rewrite Hte' in Hr2'; cbn [and_then] in Hr2'. rewrite Hlm' in Hr2'; cbn [and_then] in Hr2'.
      rewrite Hyp' in Hr2'; cbn [and_then] in Hr2'. rewrite Hmse' in Hr2'; cbn [and_then] in Hr2'. by simplify_eq. }
    cbn. intros Heq. simplify_eq.
Qed.

(** * Further properties of the notebooks *)

(** ** Loops and slices, whatever the library answers *)

(** A completed [for] loop is its completed iterations, one after the
    other. *)
Lemma run_for_each_done {S T} (h : handler S) (l : list T) body (s : S) tr s' :
  run h (for_each l body) s = (tr, Done (), s') →
  ∃ groups,
    tr = concat groups ∧
    Forall2 (λ x grp, ∃ s1 s2, run h (body x) s1 = (grp, Done (), s2)) l groups.
Proof.
  revert s tr. induction l as [|x l IH]; intros s tr; cbn [for_each].
  - cbn [run]. intros [= <- <-]. exists []. by split; [|constructor].
  - rewrite run_bind. unfold seq_run.
    destruct (run h (body x) s) as [[grp [[]|e]] s1] eqn:Hx; cbn [fst snd]; [|done].
    destruct (run h (for_each l body) s1) as [[tr1 o] s2] eqn:Hl; cbn [fst snd].
    intros [= <- -> <-]. destruct (IH _ _ Hl) as (groups & -> & Hall).
    exists (grp :: groups). split; [done|]. constructor; eauto.
Qed.

Lemma run_print_topic_done {S} (h : handler S) names n k (row : list num) (s : S)
    grp s' :
  run h (print_topic names n k row) s = (grp, Done (), s') →
  ∃ order ws,
    mapM (names !!.) (slice_rev order (- n - 1)) = Some ws ∧
    grp = [Entry (Argsort row) (inr order); Entry (Print (topic_line k ws)) (inr ())].
Proof.
  intros H. unfold print_topic in H. start H. next_call H.
  rewrite run_bind, run_index_all in H. unfold seq_run in H.
  match type of H with context [mapM ?f ?l] => destruct (mapM f l) as [ws|] eqn:Hws end;
    cbn [fst snd run] in H; [|done].
  match type of H with context [h ?X ?c ?s0] => destruct (h X c s0) as [[?|[]] ?] end;
    [done|].
  unfold log in H. cbn [fst snd] in H. simplify_eq. by eexists _, _.
Qed.

Lemma Forall2_enumerate_from {T} (P : nat * T → list entry → Prop) k (l : list T) gs :
  Forall2 P (enumerate_from k l) gs → length gs = length l.
Proof.
  revert k gs. induction l as [|x l IH]; intros k gs; cbn [enumerate_from].
  - by intros ->%Forall2_nil_inv_l.
  - intros (g & gs' & _ & H & ->)%Forall2_cons_inv_l. cbn. f_equal. eauto.
Qed.

(** Below zero the slice [[:-n - 1:-1]] stops at a position counted from the
    start: it drops the first [-n] elements and reverses the others. *)
Lemma slice_rev_drop {A} (l : list A) (n : Z) :
  (n < 0)%Z → slice_rev l (- n - 1) = reverse (drop (Z.to_nat (- n)) l).
Proof.
  intros Hn. rewrite reverse_drop. unfold slice_rev, adjust_stop_rev.
  repeat case_match; rewrite ?Z.ltb_lt, ?Z.ltb_ge, ?Z.leb_le, ?Z.leb_gt in *; try lia.
  all: f_equal; lia.
Qed.

(** ** More on [print_top_words] *)

(** X1.  Whatever the library answers and whatever [n_top_words] is, a
    completed call of [print_top_words] reads [model.components_] once, then
    for each topic row, in order and numbered from 0, calls [argsort] on the
    row and prints one line made of the names at the sliced positions, and
    ends with one empty line.  It makes no other call: the console gets one
    line per topic and one more. *)
Theorem print_top_words_lines {S} (h : handler S) {e} (m : ref e) names (n : Z)
    (s : S) tr s' :
  run h (print_top_words m names n) s = (tr, Done (), s') →
  ∃ rows groups,
    tr = Entry (Components m) (inr rows)
         :: concat groups ++ [Entry (Print "") (inr ())] ∧
    Forall2 (λ it grp, ∃ order ws,
               mapM (names !!.) (slice_rev order (- n - 1)) = Some ws ∧
               grp = [Entry (Argsort it.2) (inr order);
                      Entry (Print (topic_line it.1 ws)) (inr ())])
      (enumerate_from 0 rows) groups ∧
    length (console tr) = length rows + 1.
Proof.
  intros H. unfold print_top_words in H. start H. next_call H.
  rewrite run_bind in H. unfold seq_run in H.
  match type of H with
  | context [run h (for_each ?l ?b) ?s0] =>
      destruct (run h (for_each l b) s0) as [[tr1 [[]|e0]] s1] eqn:Hloop
  end; cbn [fst snd run] in H; [|done].
  match type of H with context [h ?X ?c ?s0] => destruct (h X c s0) as [[?|[]] ?] end;
    [done|].
  unfold log in H. cbn [fst snd] in H. simplify_eq.
  apply run_for_each_done in Hloop as (groups & -> & Hall).
  match goal with |- context [Entry (Components m) (inr ?l)] => rename l into rows end.
  assert (Forall2 (λ it grp, ∃ order ws,
               mapM (names !!.) (slice_rev order (- n - 1)) = Some ws ∧
               grp = [Entry (Argsort it.2) (inr order);
                      Entry (Print (topic_line it.1 ws)) (inr ())])
            (enumerate_from 0 rows) groups) as Hgroups.
  { eapply Forall2_impl; [exact Hall|]. intros [k row] grp (? & ? & Hrun).
    by apply run_print_topic_done in Hrun. }
  exists rows, groups. split; [done|]. split; [done|].
  rewrite <-(Forall2_enumerate_from _ _ _ _ Hgroups).
  unfold console. cbn [omap list_omap entry_line]. rewrite omap_app. cbn.
  rewrite length_app. cbn. f_equal.
  clear -Hgroups. induction Hgroups as [|it grp its gs (order & ws & _ & ->) _ IH]; [done|].
  cbn. by rewrite IH.
Qed.

(** The loop of [print_top_words] over rows of which [bad] is the first
    that selects a position outside [names]. *)
Lemma run_print_topics_until W N names n (good : list (list num)) bad rest words k
    (s : kernel) :
  mapM (mapM (names !!.)) (selected N n <$> good) = Some words →
  mapM (names !!.) (selected N n bad) = None →
  let r := run (sklearn W N)
             (for_each (enumerate_from k (good ++ bad :: rest))
                (λ it, print_topic names n it.1 it.2)) s in
  r.1.2 = Raised IndexError ∧
  console r.1.1 = imap (λ i, topic_line (k + i)) words ∧
  last r.1.1 = Some (Entry (Argsort bad) (inr (np_argsort N bad))) ∧
  r.2 = s.
Proof.
  intros Hgood Hbad.
  revert k words Hgood. induction good as [|row good IH]; intros k words Hgood.
  - injection Hgood as <-. cbn [app enumerate_from for_each fst snd].
    rewrite run_bind, run_print_topic, Hbad. unfold seq_run. cbn. by repeat split.
  - cbn [fmap list_fmap mapM] in Hgood.
    destruct (mapM _ (selected N n row)) as [ws|] eqn:Hrow; [|done].
    cbn [mbind option_bind] in Hgood.
    destruct (mapM _ (selected N n <$> good)) as [wss|] eqn:Hrest; [|done].
    injection Hgood as <-.
    cbn [app enumerate_from for_each fst snd].
    rewrite run_bind, run_print_topic, Hrow. unfold seq_run. cbn [fst snd].
    specialize (IH (S k) wss eq_refl). cbn zeta in IH.
    destruct (run _ _ s) as [[tr o] s1]. cbn [fst snd] in *.
    destruct IH as (-> & Hc & Hlast & ->).
    split; [done|]. split; [|split; [|done]].
    + unfold console in *. cbn. rewrite Nat.add_0_r. f_equal. rewrite Hc.
      apply imap_ext. intros i x _. cbn. f_equal. lia.
    + cbn [app]. rewrite !last_cons, Hlast. done.
Qed.

(** X2.  When a topic selects a position that [feature_names] does not
    have, [print_top_words] raises [IndexError] at that topic: the lines of
    the topics before it are already printed, the last call made is the
    [argsort] of the failing row, and neither its line nor the closing empty
    line is printed. *)
Theorem print_top_words_fails_midway W N {e} (m : ref e) md names (n : Z)
    (s : kernel) good bad rest words :
  fitted m s = Some md →
  est_components N md = good ++ bad :: rest →
  mapM (mapM (names !!.)) (selected N n <$> good) = Some words →
  mapM (names !!.) (selected N n bad) = None →
  let r := run (sklearn W N) (print_top_words m names n) s in
  r.1.2 = Raised IndexError ∧
  console r.1.1 = imap topic_line words ∧
  last r.1.1 = Some (Entry (Argsort bad) (inr (np_argsort N bad))) ∧
  r.2 = s.
Proof.
  intros Hfit Hrows Hgood Hbad r. subst r.
  unfold print_top_words. simpl. unfold attribute. rewrite Hfit. simpl.
  unfold log; simpl. rewrite run_bind, Hrows.
  pose proof (run_print_topics_until W N names n good bad rest words 0 s Hgood Hbad)
    as Hloop.
  cbn zeta in Hloop. unfold seq_run.
  destruct (run _ _ s) as [[tr o] s1]. cbn [fst snd] in *.
  destruct Hloop as (-> & Hc & Hlast & ->). cbn [fst snd].
  split; [done|]. split; [|split; [|done]].
  - unfold console in *. cbn. exact Hc.
  - rewrite last_cons, Hlast. done.
Qed.

(** X3.  A negative [n_top_words] is no error and does not print empty
    topics: the slice [[:-n_top_words - 1:-1]] then stops at a position
    counted from the start, so that each topic lists the positions of all
    its entries but the [-n_top_words] smallest, by non-increasing weight
    (none when the row is that short). *)
Theorem print_top_words_negative W N {e} (m : ref e) md names (n : Z) (s : kernel) :
  fitted m s = Some md →
  (n < 0)%Z →
  Forall (λ row, is_argsort py row (np_argsort N row)) (est_components N md) →
  let tops := selected N n <$> est_components N md in
  let r := run (sklearn W N) (print_top_words m names n) s in
  Forall2 (λ row sel,
             sel = reverse (drop (Z.to_nat (- n)) (np_argsort N row)) ∧
             top_ranking py row (length row - Z.to_nat (- n)) sel)
    (est_components N md) tops ∧
  match mapM (mapM (names !!.)) tops with
  | Some words => r.1.2 = Done () ∧ console r.1.1 = imap topic_line words ++ [""]
  | None => r.1.2 = Raised IndexError
  end.
Proof.
  intros Hfit Hn Hsort tops r. split.
  - subst tops. apply Forall2_fmap_r, Forall_Forall2_diag.
    eapply Forall_impl; [exact Hsort|]. intros row Hrow.
    assert (selected N n row = reverse (drop (Z.to_nat (- n)) (np_argsort N row)))
      as Hsel by (unfold selected; by rewrite slice_rev_drop).
    split; [exact Hsel|]. rewrite Hsel, reverse_drop.
    assert (length (np_argsort N row) = length row) as ->.
    { destruct Hrow as [Hperm _]. by rewrite Hperm, length_seq. }
    replace (length row - Z.to_nat (- n))
      with ((length row - Z.to_nat (- n)) `min` length row) at 1 by lia.
    by apply argsort_top.
  - subst r. unfold print_top_words. simpl. unfold attribute. rewrite Hfit. simpl.
    unfold log; simpl.
    rewrite run_bind.
    pose proof (run_print_topics W N names n (est_components N md) 0 s) as Hloop.
    simpl in Hloop. unfold seq_run.
    destruct (run _ _ s) as [[tr o] s1]; simpl in *. destruct Hloop as [-> Hloop].
    fold tops in Hloop.
    destruct (mapM _ tops) as [words|]; simpl.
    + destruct Hloop as [-> Hc]. simpl. split; [done|].
      unfold console in *. simpl. by rewrite omap_app, Hc.
    + by rewrite Hloop.
Qed.

(** ** The topic-modelling notebook, call by call *)

Lemma run_topic_modeling {S} (h : handler S) (s : S) tr s' :
  run h (topic_modeling py) s = (tr, Done (), s') →
  ∃ t0 t1 t2 t3 t4 t5 dataset vectorizer tfidf unfitted nmf names
    rows1 row1 rows2 row2 top s1,
    rows1 !! 0 = Some row1 ∧ rows2 !! 0 = Some row2 ∧
    run h (print_top_words nmf names n_top_words) s1 = (top, Done (), s') ∧
    tr = [Entry (Print "Loading dataset...") (inr ());
          Entry Time (inr t0);
          Entry (Fetch20Newsgroups true 1 ["headers"; "footers"; "quotes"])
            (inr dataset);
          Entry Time (inr t1);
          Entry (Print ("done in " +:+ fmt_float py "%0.3f" (float_sub py t1 t0)
                        +:+ "s.")) (inr ());
          Entry (Print "Extracting tf-idf features for NMF...") (inr ());
          Entry (New (TfidfVectorizer 0.95 2 n_features "english")) (inr vectorizer);
          Entry Time (inr t2);
          Entry (FitTransformText vectorizer (take n_samples (ng_data dataset)))
            (inr tfidf);
          Entry Time (inr t3);
          Entry (Print ("done in " +:+ fmt_float py "%0.3f" (float_sub py t3 t2)
                        +:+ "s.")) (inr ());
          Entry (Print ("Fitting the NMF model (Frobenius norm) with tf-idf features, n_samples="
                        +:+ pretty n_samples +:+ " and n_features="
                        +:+ pretty n_features +:+ "...")) (inr ());
          Entry Time (inr t4);
          Entry (New (NMF n_components (Some 1%Z) 0.1 0.5)) (inr unfitted);
          Entry (Fit unfitted tfidf None) (inr nmf);
          Entry Time (inr t5);
          Entry (Print ("done in " +:+ fmt_float py "%0.3f" (float_sub py t5 t4)
                        +:+ "s.")) (inr ());
          Entry (GetFeatureNames vectorizer) (inr names);
          Entry (Print (str_strings py names)) (inr ());
          Entry (Components nmf) (inr rows1);
          Entry (Display (repr_row py row1)) (inr ());
          Entry (Components nmf) (inr rows2);
          Entry (Display (repr_pairs py (names_before_b names row2))) (inr ());
          Entry (Print (nl +:+ "Topics in NMF model (Frobenius norm):")) (inr ())]
         ++ top.
Proof.
  intros H. unfold topic_modeling, print_elapsed in H. start H.
  do 20 next_call H.
  unfold index in H.
  match type of H with context [?l !! 0] => destruct (l !! 0) eqn:Hrow1 end;
    cbn [bind run] in H; [|discriminate H].
  do 2 next_call H.
  match type of H with context [?l !! 0] => destruct (l !! 0) eqn:Hrow2 end;
    cbn [bind run] in H; [|discriminate H].
  do 2 next_call H.
  repeat match goal with u : () |- _ => destruct u end.
  eexists _, _, _, _, _, _, _, _, _, _, _, _, _, _, _, _, _, _.
  split; [exact Hrow1|]. split; [exact Hrow2|]. split; [exact H|]. reflexivity.
Qed.

(** [name < 'b']: the empty string, and the strings whose first character
    comes before ['b']. *)
Lemma ltb_b (name : string) :
  String.ltb name "b" = true ↔
  name = "" ∨ ∃ c rest, name = String c rest ∧ nat_of_ascii c < nat_of_ascii "b".
Proof.
  unfold String.ltb. destruct name as [|c rest]; cbn [String.compare].
  - split; [by left|done].
  - unfold Ascii.compare, nat_of_ascii.
    destruct (N.compare_spec (N_of_ascii c) (N_of_ascii "b")) as [Heq|Hlt|Hgt].
    + split.
      * by destruct rest.
      * intros [|(c' & rest' & [= <- <-] & Hlt)]; [done|]. lia.
    + split; [|done]. intros _. right. exists c, rest. split; [done|lia].
    + split; [done|]. intros [|(c' & rest' & [= <- <-] & Hlt)]; [done|]. lia.
Qed.

Lemma names_before_b_spec (names : list string) (row : list num) name x :
  (name, x) ∈ names_before_b names row ↔
  (∃ i, names !! i = Some name ∧ row !! i = Some x) ∧
  (name = "" ∨ ∃ c rest, name = String c rest ∧ nat_of_ascii c < nat_of_ascii "b").
Proof.
  unfold names_before_b. rewrite list_elem_of_In, filter_In, <-list_elem_of_In.
  cbn [fst]. rewrite ltb_b. f_equiv. split.
  - intros (i & a & b & [= -> ->] & ? & ?)%elem_of_lookup_zip_with. eauto.
  - intros (i & ? & ?). by eapply (elem_of_lookup_zip_with_2 pair).
Qed.

Lemma names_before_b_sublist (names : list string) (row : list num) :
  names_before_b names row `sublist_of` zip names row.
Proof.
  unfold names_before_b. induction (zip names row) as [|it l IH]; [done|].
  cbn [List.filter]. destruct (String.ltb _ _); by constructor.
Qed.

(** X4.  The three [done in ...] lines of the topic-modelling notebook each
    report the clock read that follows a step minus the clock read that
    precedes it: around [fetch_20newsgroups], around
    [tfidf_vectorizer.fit_transform] (the vectorizer is constructed before
    the first read) and around the construction and the fit of [NMF]
    together.  The progress lines are printed before the step starts, the
    numbers in the third are 2000 and 1000, and a completed run reads the
    clock these six times and never again. *)
Theorem topic_modeling_timing {S} (h : handler S) (s : S) tr s' :
  run h (topic_modeling py) s = (tr, Done (), s') →
  let done_in (t0 t1 : num) :=
    "done in " +:+ fmt_float py "%0.3f" (float_sub py t1 t0) +:+ "s." in
  ∃ t0 t1 t2 t3 t4 t5 dataset vectorizer tfidf unfitted nmf names rest,
    tr = [Entry (Print "Loading dataset...") (inr ());
          Entry Time (inr t0);
          Entry (Fetch20Newsgroups true 1 ["headers"; "footers"; "quotes"])
            (inr dataset);
          Entry Time (inr t1);
          Entry (Print (done_in t0 t1)) (inr ());
          Entry (Print "Extracting tf-idf features for NMF...") (inr ());
          Entry (New (TfidfVectorizer 0.95 2 1000 "english")) (inr vectorizer);
          Entry Time (inr t2);
          Entry (FitTransformText vectorizer (take 2000 (ng_data dataset)))
            (inr tfidf);
          Entry Time (inr t3);
          Entry (Print (done_in t2 t3)) (inr ());
          Entry (Print "Fitting the NMF model (Frobenius norm) with tf-idf features, n_samples=2000 and n_features=1000...")
            (inr ());
          Entry Time (inr t4);
          Entry (New (NMF 10 (Some 1%Z) 0.1 0.5)) (inr unfitted);
          Entry (Fit unfitted tfidf None) (inr nmf);
          Entry Time (inr t5);
          Entry (Print (done_in t4 t5)) (inr ());
          Entry (GetFeatureNames vectorizer) (inr names);
          Entry (Print (str_strings py names)) (inr ())]
         ++ rest ∧
    Forall (λ en, entry_effect en ≠ ReadsClock) rest.
Proof.
  intros H done_in.
  apply run_topic_modeling in H
    as (t0 & t1 & t2 & t3 & t4 & t5 & dataset & vectorizer & tfidf & unfitted & nmf
        & names & rows1 & row1 & rows2 & row2 & top & s1 & _ & _ & Htop & ->).
  exists t0, t1, t2, t3, t4, t5, dataset, vectorizer, tfidf, unfitted, nmf, names.
  eexists. split; [reflexivity|].
  repeat (constructor; [done|]).
  assert (all_calls (@within num table column [WritesConsole; InMemory])
            (print_top_words nmf names n_top_words)) as Hcalls
    by (unfold print_top_words, print_topic; cbn [bind perform]; unfold perform;
        cbn [bind]; effects).
  apply (all_calls_run _ h _ s1) in Hcalls. rewrite Htop in Hcalls. cbn [fst] in Hcalls.
  eapply Forall_impl; [exact Hcalls|]. intros [X c r]. unfold within. cbn.
  rewrite !elem_of_cons, elem_of_nil. intros [->|[->|[]]]; done.
Qed.

(** X5.  In[6] of the topic-modelling notebook echoes, for the first topic
    row, the pairs (name, weight) of the positions that both the feature
    names and the row have, in vocabulary order, keeping exactly the names
    below ['b']: the empty name and the names whose first character comes
    before the letter b. *)
Theorem low_names_echoed {S} (h : handler S) (s : S) tr s' :
  run h (topic_modeling py) s = (tr, Done (), s') →
  ∃ (vectorizer : ref (TfidfVectorizer 0.95 2 1000 "english")) names
    (nmf : ref (NMF 10 (Some 1%Z) 0.1 0.5)) rows row,
    Entry (GetFeatureNames vectorizer) (inr names) ∈ tr ∧
    Entry (Components nmf) (inr rows) ∈ tr ∧
    rows !! 0 = Some row ∧
    Entry (Display (repr_pairs py (names_before_b names row))) (inr ()) ∈ tr ∧
    names_before_b names row `sublist_of` zip names row ∧
    ∀ name x,
      (name, x) ∈ names_before_b names row ↔
      (∃ i, names !! i = Some name ∧ row !! i = Some x) ∧
      (name = "" ∨
       ∃ c rest, name = String c rest ∧ nat_of_ascii c < nat_of_ascii "b").
Proof.
  intros H.
  apply run_topic_modeling in H
    as (t0 & t1 & t2 & t3 & t4 & t5 & dataset & vectorizer & tfidf & unfitted & nmf
        & names & rows1 & row1 & rows2 & row2 & top & s1 & _ & Hrow & _ & ->).
  exists vectorizer, names, nmf, rows2, row2.
  split; [rewrite elem_of_app; left;
          repeat first [apply list_elem_of_here|apply list_elem_of_further]|].
  split; [rewrite elem_of_app; left; do 21 apply list_elem_of_further;
          apply list_elem_of_here|].
  split; [exact Hrow|].
  split; [rewrite elem_of_app; left; do 22 apply list_elem_of_further;
          apply list_elem_of_here|].
  split; [apply names_before_b_sublist|]. apply names_before_b_spec.
Qed.

(** ** The clustering and PCA notebook, call by call *)

Lemma run_clustering_pca {S} (h : handler S) (s : S) tr s' :
  run h (clustering_pca py) s = (tr, Done (), s') →
  ∃ df df2 df3 y X km labels stacked kdf m0 m1 m2 iris pca fitted X_r ratio
    components groups text,
    Forall2 (λ it grp, ∃ xs ys,
               grp = [Entry (MaskedColumn X_r (iris_target iris) it.1.2 0) (inr xs);
                      Entry (MaskedColumn X_r (iris_target iris) it.1.2 1) (inr ys);
                      Entry (Scatter xs ys it.1.1 0.8 2 it.2) (inr ())])
      (zip3 ["navy"; "turquoise"; "darkorange"] [0; 1; 2] (iris_target_names iris))
      groups ∧
    tr = [Entry (ReadCsv "data/diamonds.csv") (inr df);
          Entry (DropCol df 0) (inr df2);
          Entry (GetDummies df2) (inr df3);
          Entry (IlocCol df3 3) (inr y);
          Entry (DropCol df3 3) (inr X);
          Entry (New (KMeans 3 None)) (inr km);
          Entry (FitPredict km X) (inr labels);
          Entry (Display (repr_column py labels)) (inr ());
          Entry (ColumnStack [labels; y]) (inr stacked);
          Entry (DataFrame stacked ["cluster"; "price"]) (inr kdf);
          Entry (MeanWhere kdf "price" "cluster" 0) (inr m0);
          Entry (MeanWhere kdf "price" "cluster" 1) (inr m1);
          Entry (MeanWhere kdf "price" "cluster" 2) (inr m2);
          Entry (Print (str_floats py [m0; m1; m2])) (inr ());
          Entry LoadIris (inr iris);
          Entry (New (PCA 2)) (inr pca);
          Entry (Fit pca (iris_data iris) None) (inr fitted);
          Entry (Transform fitted (iris_data iris)) (inr X_r);
          Entry (ExplainedVarianceRatio pca) (inr ratio);
          Entry (Print ("explained variance ratio (first two components): "
                        +:+ str_column py ratio)) (inr ());
          Entry (Components pca) (inr components);
          Entry (Display (repr_matrix py components)) (inr ())]
         ++ concat groups
         ++ [Entry (Legend "best" false 1) (inr ());
             Entry (Title "PCA of IRIS dataset") (inr text);
             Entry (Display text) (inr ())].
Proof.
  intros H. unfold clustering_pca in H. cbn [collect seq] in H. start H.
  do 22 next_call H.
  rewrite run_bind in H. unfold seq_run in H.
  match type of H with
  | context [run h (for_each ?l ?b) ?s0] =>
      destruct (run h (for_each l b) s0) as [[loop [[]|e0]] sl] eqn:Hloop
  end; cbn [fst snd] in H; [|done].
  match type of H with
  | context [run h ?p sl] => destruct (run h p sl) as [[tl ol] sl'] eqn:Hend
  end.
  cbn [fst snd] in H. simplify_eq. cbn [run] in Hend. do 3 next_call Hend.
  simplify_eq.
  repeat match goal with u : () |- _ => destruct u end.
  apply run_for_each_done in Hloop as (groups & -> & Hall).
  eexists _, _, _, _, _, _, _, _, _, _, _, _, _, _, _, _, _, _, groups, _.
  split; [|reflexivity].
  eapply Forall2_impl; [exact Hall|]. intros [[color k] name] grp (sa & sb & Hrun).
  cbn [fst snd] in *. start Hrun. do 3 next_call Hrun. simplify_eq.
  repeat match goal with u : () |- _ => destruct u end.
  by eexists _, _.
Qed.

(** X6.  The clustering cells keep the price out of the clustering and
    hard-code the three clusters: column 3 of the one-hot frame is taken
    out as [y] and [KMeans(n_clusters=3)] is fitted on the frame without
    that column; the labels it answers are paired with [y] under the column
    names [cluster] and [price]; and the mean price is asked for the labels
    0, 1 and 2, in this order, from that one frame, and printed as one list
    of three numbers. *)
Theorem cluster_means_flow {S} (h : handler S) (s : S) tr s' :
  run h (clustering_pca py) s = (tr, Done (), s') →
  ∃ df df2 df3 y X km labels stacked kdf m0 m1 m2 rest,
    tr = [Entry (ReadCsv "data/diamonds.csv") (inr df);
          Entry (DropCol df 0) (inr df2);
          Entry (GetDummies df2) (inr df3);
          Entry (IlocCol df3 3) (inr y);
          Entry (DropCol df3 3) (inr X);
          Entry (New (KMeans 3 None)) (inr km);
          Entry (FitPredict km X) (inr labels);
          Entry (Display (repr_column py labels)) (inr ());
          Entry (ColumnStack [labels; y]) (inr stacked);
          Entry (DataFrame stacked ["cluster"; "price"]) (inr kdf);
          Entry (MeanWhere kdf "price" "cluster" 0) (inr m0);
          Entry (MeanWhere kdf "price" "cluster" 1) (inr m1);
          Entry (MeanWhere kdf "price" "cluster" 2) (inr m2);
          Entry (Print (str_floats py [m0; m1; m2])) (inr ())]
         ++ rest ∧
    omap (observe (@fit_data num table column)) (take 14 tr) = [(X, None)].
Proof.
  intros H.
  apply run_clustering_pca in H
    as (df & df2 & df3 & y & X & km & labels & stacked & kdf & m0 & m1 & m2 & iris
        & pca & fitted & X_r & ratio & components & groups & text & _ & ->).
  exists df, df2, df3, y, X, km, labels, stacked, kdf, m0, m1, m2. eexists.
  split; reflexivity.
Qed.

(** X7.  The PCA cells fit [PCA(n_components=2)] on the iris data and
    transform the same data with the object [fit] returns; the variance
    ratio and the components are read from [pca].  The plot cell then draws
    one scatter for each of the first [min(3, len(target_names))] classes:
    class [i] takes the [i]-th colour and the [i]-th target name, and its
    points are columns 0 and 1 of the transformed rows whose target is [i].
    The legend and the title come after the last scatter. *)
Theorem pca_scatter_flow {S} (h : handler S) (s : S) tr s' :
  run h (clustering_pca py) s = (tr, Done (), s') →
  ∃ pre iris pca fitted X_r ratio components groups text,
    tr = pre
         ++ [Entry LoadIris (inr iris);
             Entry (New (PCA 2)) (inr pca);
             Entry (Fit pca (iris_data iris) None) (inr fitted);
             Entry (Transform fitted (iris_data iris)) (inr X_r);
             Entry (ExplainedVarianceRatio pca) (inr ratio);
             Entry (Print ("explained variance ratio (first two components): "
                           +:+ str_column py ratio)) (inr ());
             Entry (Components pca) (inr components);
             Entry (Display (repr_matrix py components)) (inr ())]
         ++ concat groups
         ++ [Entry (Legend "best" false 1) (inr ());
             Entry (Title "PCA of IRIS dataset") (inr text);
             Entry (Display text) (inr ())] ∧
    Forall2 (λ it grp, ∃ xs ys,
               grp = [Entry (MaskedColumn X_r (iris_target iris) it.1.2 0) (inr xs);
                      Entry (MaskedColumn X_r (iris_target iris) it.1.2 1) (inr ys);
                      Entry (Scatter xs ys it.1.1 0.8 2 it.2) (inr ())])
      (zip3 ["navy"; "turquoise"; "darkorange"] [0; 1; 2] (iris_target_names iris))
      groups ∧
    length (List.filter entry_is_scatter tr) = 3 `min` length (iris_target_names iris).
Proof.
  intros H.
  apply run_clustering_pca in H
    as (df & df2 & df3 & y & X & km & labels & stacked & kdf & m0 & m1 & m2 & iris
        & pca & fitted & X_r & ratio & components & groups & text & Hgroups & ->).
  eexists [_; _; _; _; _; _; _; _; _; _; _; _; _; _].
  exists iris, pca, fitted, X_r, ratio, components, groups, text.
  split; [reflexivity|]. split; [exact Hgroups|].
  assert (length groups = 3 `min` length (iris_target_names iris)) as <-.
  { apply Forall2_length in Hgroups. rewrite <-Hgroups. unfold zip3.
    rewrite !length_zip. cbn. lia. }
  cbn [app List.filter entry_is_scatter is_scatter].
  rewrite List.filter_app. cbn [List.filter entry_is_scatter is_scatter].
  rewrite app_nil_r. clear -Hgroups.
  induction Hgroups as [|it grp its gs (xs & ys & ->) _ IH]; [done|].
  cbn. by rewrite IH.
Qed.

(** ** What a run depends on *)

(** Two handlers that agree on the calls a program can make run it alike. *)
Lemma run_agree {A S} P (h h' : handler S) (p : prog A) (s : S) :
  all_calls P p →
  (∀ X (c : call X) s0, P X c → h' X c s0 = h X c s0) →
  run h' p s = run h p s.
Proof.
  intros Hp Hh. revert s. induction Hp as [| |X c k Hc _ IH]; intros s; [done..|].
  cbn [run]. rewrite (Hh _ _ _ Hc). destruct (h X c s) as [[e|x] s1]; [done|].
  by rewrite IH.
Qed.

(** A property of the state that every call of the program keeps is kept
    by the run. *)
Lemma run_preserves {A S} P (I : S → Prop) (h : handler S) (p : prog A) (s : S) :
  all_calls P p →
  (∀ X (c : call X) s0, P X c → I s0 → I (h X c s0).2) →
  I s → I (run h p s).2.
Proof.
  intros Hp Hh. revert s. induction Hp as [| |X c k Hc _ IH]; intros s Hs; [done..|].
  cbn [run]. specialize (Hh _ c s Hc Hs).
  destruct (h X c s) as [[e|x] s1]; [done|]. cbn [snd] in Hh.
  specialize (IH x s1 Hh). by destruct (run h (k x) s1) as [[??]?].
Qed.

(** The kernel draws from the global random state in the calls
    [draws_random] marks, once, and in no other call. *)
Lemma sklearn_draws W N X (c : call X) (s : kernel) :
  draws (sklearn W N c s).2 = if draws_random c then S (draws s) else draws s.
Proof.
  destruct c; cbn [sklearn draws_random snd]; try done.
  all: unfold fit_object.
  all: destruct (uses_global_rng e); cbn [snd].
  all: by repeat case_match.
Qed.

(** Outside the process the kernel reads what the effect of the call says
    and nothing else. *)
Lemma sklearn_reads W W' N X (c : call X) (s : kernel) :
  match effect_of c with
  | ReadsLocalFile path => files W' path = files W path
  | FetchesCorpus =>
      ∀ shuffle random_state remove,
        corpus W' shuffle random_state remove = corpus W shuffle random_state remove
  | LoadsBundled => bundled_iris W' = bundled_iris W
  | ReadsClock => clock W' (ticks s) = clock W (ticks s)
  | DrawsRandom | WritesConsole | DrawsPlot | InMemory => True
  end →
  (draws_random c = true → entropy W' (draws s) = entropy W (draws s)) →
  sklearn W' N c s = sklearn W N c s.
Proof.
  destruct c; cbn [sklearn effect_of draws_random]; try done.
  all: try (intros -> _; done).
  all: try (intros _ ->; done).
  all: unfold fit_object; destruct (uses_global_rng e); try done.
  all: by intros _ ->.
Qed.

(** No call of the topic-modelling notebook reads a file, the bundled data
    or the global random state. *)
Lemma topic_modeling_quiet :
  all_calls (λ X (c : call X),
               effect_of c ∈ [FetchesCorpus; ReadsClock; WritesConsole; InMemory]
               ∧ draws_random c = false)
    (topic_modeling py).
Proof.
  program.
  repeat first
    [ intro
    | apply all_calls_ret
    | apply all_calls_index
    | apply all_calls_index_all
    | apply all_calls_for_each; intros; cbn [bind]
    | apply all_calls_bind
    | apply all_calls_vis;
        [split; [cbn [effect_of fit_effect uses_global_rng]; set_solver
                |reflexivity]|] ].
Qed.

(** X8.  The topic-modelling notebook passes [random_state=1] wherever the
    library takes one and reads no file: its run (the calls and their
    answers, the outcome and the final kernel) is the same in any two worlds
    that give the same corpus and the same clock, whatever their files,
    their bundled data and their global random state, and it never draws
    from the global random state. *)
Theorem topic_modeling_reproducible W W' N (s : kernel) :
  (∀ shuffle random_state remove,
      corpus W' shuffle random_state remove = corpus W shuffle random_state remove) →
  (∀ k, clock W' k = clock W k) →
  run (sklearn W' N) (topic_modeling py) s = run (sklearn W N) (topic_modeling py) s ∧
  draws (run (sklearn W N) (topic_modeling py) s).2 = draws s.
Proof.
  intros Hcorpus Hclock. split.
  - eapply run_agree; [apply topic_modeling_quiet|].
    intros X c s0 [Hc Hquiet]. apply sklearn_reads; [|by rewrite Hquiet].
    rewrite !elem_of_cons, elem_of_nil in Hc.
    destruct Hc as [->|[->|[->|[->|[]]]]]; done.
  - apply (run_preserves _ (λ s0 : kernel, draws s0 = draws s) _ _ _
             topic_modeling_quiet); [|done].
    intros X c s0 [_ Hquiet] <-. by rewrite sklearn_draws, Hquiet.
Qed.

(** X9.  [KMeans(n_clusters=3)] is given no [random_state]: the labels the
    clustering cell echoes are those of a fit seeded by the next draw of
    the global random state, which is the only draw of a completed run.
    [PCA(n_components=2)] is fitted on the bundled iris data without any
    draw; the transformed data, the printed variance ratio and the echoed
    components all belong to that one fit. *)
Theorem kmeans_follows_global_state W N (s : kernel) tr s' :
  run (sklearn W N) (clustering_pca py) s = (tr, Done (), s') →
  ∃ X km_model pca_model X_r,
    est_fit N (KMeans 3 None) (Some (entropy W (draws s))) X None = inr km_model ∧
    Entry (FitPredict (@Ref (KMeans 3 None) (next_addr s)) X)
      (inr (est_labels N km_model)) ∈ tr ∧
    Entry (Display (repr_column py (est_labels N km_model))) (inr ()) ∈ tr ∧
    est_fit N (PCA 2) None (iris_data (bundled_iris W)) None = inr pca_model ∧
    est_transform N pca_model (iris_data (bundled_iris W)) = inr X_r ∧
    Entry (Transform (@Ref (PCA 2) (S (next_addr s))) (iris_data (bundled_iris W)))
      (inr X_r) ∈ tr ∧
    Entry (Print ("explained variance ratio (first two components): "
                  +:+ str_column py (est_explained_variance_ratio N pca_model)))
      (inr ()) ∈ tr ∧
    Entry (Display (repr_matrix py (est_components N pca_model))) (inr ()) ∈ tr ∧
    draws s' = S (draws s).
Proof.
  intros H. unfold clustering_pca in H. cbn [collect seq] in H. start H.
  do 22 step H.
  match type of H with
  | run _ ?p ?s0 = _ =>
      assert (all_calls (λ X (c : call X), draws_random c = false) p) as Hquiet;
      [|pose proof (run_preserves _ (λ s1 : kernel, draws s1 = draws s0)
                      (sklearn W N) p s0 Hquiet) as Hdraws]
  end.
  { repeat first
      [ intro
      | apply all_calls_ret
      | apply all_calls_for_each; intros; cbn [bind]
      | apply all_calls_bind
      | apply all_calls_vis; [reflexivity|] ]. }
  rewrite H in Hdraws. cbn [snd] in Hdraws.
  eexists _, _, _, _.
  split; [eassumption|].
  split; [do 6 apply list_elem_of_further; apply list_elem_of_here|].
  split; [do 7 apply list_elem_of_further; apply list_elem_of_here|].
  split; [reflexivity|].
  split; [eassumption|].
  split; [do 17 apply list_elem_of_further; apply list_elem_of_here|].
  split; [do 19 apply list_elem_of_further; apply list_elem_of_here|].
  split; [do 21 apply list_elem_of_further; apply list_elem_of_here|].
  rewrite Hdraws; [done| |done].
  intros ? ? ? Hc <-. by rewrite sklearn_draws, Hc.
Qed.

(** ** The standard-scaling notebook, call by call *)

Lemma run_standard_scaling_calls {S} (h : handler S) (s : S) tr s' :
  run h (standard_scaling py) s = (tr, Done (), s') →
  ∃ df X y f1 lr1 linear1 y_pred1 mse1 rmse1 coef1
    f2 ss X_train_ss lr2 linear2 X_test_ss y_pred2 mse2 rmse2 coef2,
    tr = [Entry (ReadCsv "data/powerplant.csv") (inr df);
          Entry (IlocColsBefore df 4) (inr X);
          Entry (IlocCol df 4) (inr y);
          Entry (TrainTestSplit X y 0.3) (inr f1);
          Entry (New LinearRegression) (inr lr1);
          Entry (Fit lr1 (X_train f1) (Some (y_train f1))) (inr linear1);
          Entry (Predict linear1 (X_test f1)) (inr y_pred1);
          Entry (MeanSquaredError (y_test f1) y_pred1) (inr mse1);
          Entry (Sqrt mse1) (inr rmse1);
          Entry (Print ("RMSE " +:+ fmt_float py "%f" rmse1)) (inr ());
          Entry (Coef linear1) (inr coef1);
          Entry (Print (str_column py coef1)) (inr ());
          Entry (TrainTestSplit X y 0.3) (inr f2);
          Entry (New StandardScaler) (inr ss);
          Entry (FitTransform ss (X_train f2)) (inr X_train_ss);
          Entry (New LinearRegression) (inr lr2);
          Entry (Fit lr2 X_train_ss (Some (y_train f2))) (inr linear2);
          Entry (Transform ss (X_test f2)) (inr X_test_ss);
          Entry (Predict linear2 X_test_ss) (inr y_pred2);
          Entry (MeanSquaredError (y_test f2) y_pred2) (inr mse2);
          Entry (Sqrt mse2) (inr rmse2);
          Entry (Print ("RMSE " +:+ fmt_float py "%f" rmse2)) (inr ());
          Entry (Coef linear2) (inr coef2);
          Entry (Display (repr_column py coef2)) (inr ())].
Proof.
  intros H. unfold standard_scaling, baseline, standardized, print_rmse in H.
  start H. do 24 next_call H. simplify_eq.
  repeat match goal with u : () |- _ => destruct u end.
  by eexists _, _, _, _, _, _, _, _, _, _, _, _, _, _, _, _, _, _, _, _.
Qed.

(** X10.  In the standard-scaling notebook the held-out folds never reach
    a fit, whatever the library answers: the three fitting calls of a
    completed run take the training features of the first split, the
    training features of the second split and the scaler's output for
    them, with the training responses of the same split; the test features
    go to [predict] and [transform] only, and the test responses to the
    metric only, each with the prediction for its own split. *)
Theorem held_out_folds_never_fitted {S} (h : handler S) (s : S) tr s' :
  run h (standard_scaling py) s = (tr, Done (), s') →
  ∃ X y f1 f2 (ss : ref StandardScaler) X_train_ss X_test_ss,
    Entry (TrainTestSplit X y 0.3) (inr f1) ∈ tr ∧
    Entry (TrainTestSplit X y 0.3) (inr f2) ∈ tr ∧
    Entry (FitTransform ss (X_train f2)) (inr X_train_ss) ∈ tr ∧
    Entry (Transform ss (X_test f2)) (inr X_test_ss) ∈ tr ∧
    omap (observe (@fit_data num table column)) tr
      = [(X_train f1, Some (y_train f1)); (X_train f2, None);
         (X_train_ss, Some (y_train f2))] ∧
    omap (observe (@applied_data num table column)) tr
      = [X_test f1; X_test f2; X_test_ss] ∧
    omap (observe (@scored_data num table column)) tr = [y_test f1; y_test f2].
Proof.
  intros H.
  apply run_standard_scaling_calls in H
    as (df & X & y & f1 & lr1 & linear1 & y_pred1 & mse1 & rmse1 & coef1
        & f2 & ss & X_train_ss & lr2 & linear2 & X_test_ss & y_pred2 & mse2 & rmse2
        & coef2 & ->).
  exists X, y, f1, f2, ss, X_train_ss, X_test_ss.
  split; [do 3 apply list_elem_of_further; apply list_elem_of_here|].
  split; [do 12 apply list_elem_of_further; apply list_elem_of_here|].
  split; [do 14 apply list_elem_of_further; apply list_elem_of_here|].
  split; [do 17 apply list_elem_of_further; apply list_elem_of_here|].
  by repeat split.
Qed.

(** X11.  Binding [lr] again in In[2] makes a second regression object and
    leaves the first as it was fitted: at the end of a completed run the
    kernel holds the regression fitted on the raw training features, the
    scaler, and the regression fitted on the standardized training
    features, at three addresses.  The coefficients In[1] prints are those
    of the first; the coefficients In[4] echoes, the last output of the
    run, are those of the second. *)
Theorem echoed_coefficients_are_standardized W N (s : kernel) tr s' :
  run (sklearn W N) (standard_scaling py) s = (tr, Done (), s') →
  ∃ X y f1 f2 raw stats X_train_ss standardized,
    train_test_split N (entropy W (draws s)) X y 0.3 = inr f1 ∧
    train_test_split N (entropy W (S (draws s))) X y 0.3 = inr f2 ∧
    est_fit N LinearRegression None (X_train f1) (Some (y_train f1)) = inr raw ∧
    est_fit N StandardScaler None (X_train f2) None = inr stats ∧
    est_transform N stats (X_train f2) = inr X_train_ss ∧
    est_fit N LinearRegression None X_train_ss (Some (y_train f2))
      = inr standardized ∧
    Entry (Print (str_column py (est_coef N raw))) (inr ()) ∈ tr ∧
    last tr = Some (Entry (Display (repr_column py (est_coef N standardized)))
                      (inr ())) ∧
    fitted (@Ref LinearRegression (next_addr s)) s' = Some raw ∧
    fitted (@Ref StandardScaler (S (next_addr s))) s' = Some stats ∧
    fitted (@Ref LinearRegression (S (S (next_addr s)))) s' = Some standardized ∧
    next_addr s' = S (S (S (next_addr s))).
Proof.
  intros H.
  apply run_standard_scaling in H
    as (df & X & y & f1 & f2 & tr1 & tr2 & s1 & Hdf & HX & Hy & Hf1 & Hf2 & Hb & Hs & ->).
  apply run_baseline in Hb as (lm1 & yp1 & mse1 & Hlm1 & Hyp1 & Hmse1 & -> & ->).
  apply run_standardized in Hs
    as (stats & Xtr & Xte & lm2 & yp2 & mse2 & Hst & Htr & Hlm2 & Hte & Hyp2 & Hmse2
        & -> & ->).
  exists X, y, f1, f2, lm1, stats, Xtr, lm2.
  do 6 (split; [done|]).
  split; [do 11 apply list_elem_of_further; apply list_elem_of_here|].
  split; [reflexivity|].
  unfold fitted. cbn [heap next_addr drawn addr].
  rewrite !lookup_insert_ne by lia. rewrite !lookup_insert_eq.
  rewrite lookup_insert_ne by lia. rewrite lookup_insert_eq.
  done.
Qed.

End Theory.

(** ** The claims on the sample instance *)

Lemma scaler_reused_unmodified_witness :
  let W := Sample.online Sample.ascending in
  let r := run (sklearn W Sample.library)
             (standardized Sample.py Sample.power_folds) fresh_kernel in
  r = (r.1.1, Done (), r.2) ∧
  ∃ stats,
    est_fit Sample.library StandardScaler None (X_train Sample.power_folds) None
      = inr stats ∧
    Sample.center stats = [16; 45; 1012; 73]%Z ∧
    fitted (@Ref StandardScaler 0) r.2 = Some stats.
Proof.
  intros W r.
  assert (r = (r.1.1, Done (), r.2)) as Hrun by (vm_compute; reflexivity).
  split; [exact Hrun|].
  destruct (scaler_reused_unmodified Sample.py W Sample.library
              Sample.power_folds fresh_kernel r.1.1 r.2 Hrun)
    as (stats & Xtr & Xte & rest & Hfit & _ & _ & _ & Hkept & _).
  exists stats. split; [exact Hfit|]. split; [|exact Hkept].
  vm_compute in Hfit. injection Hfit as <-. reflexivity.
Defined.

(** C2 as stated fails on the standard-scaling notebook: a completed run
    calls [fit] twice, not once. *)
Lemma standard_scaling_fits_twice :
  let r := run (sklearn (Sample.online Sample.ascending) Sample.library)
             (standard_scaling Sample.py) fresh_kernel in
  r.1.2 = Done () ∧ fit_calls r.1.1 = 2 ∧ fit_calls r.1.1 ≠ 1.
Proof.
  intros r. split; [vm_compute; reflexivity|].
  assert (fit_calls r.1.1 = 2) as -> by (vm_compute; reflexivity).
  split; [reflexivity|discriminate].
Qed.

Lemma fit_calls_per_notebook_witness :
  let h := sklearn (Sample.online Sample.ascending) Sample.library in
  let a := run h (standard_scaling Sample.py) fresh_kernel in
  let b := run h (topic_modeling Sample.py) fresh_kernel in
  let c := run h (clustering_pca Sample.py) fresh_kernel in
  (a = (a.1.1, Done (), a.2) ∧ b = (b.1.1, Done (), b.2) ∧ c = (c.1.1, Done (), c.2)) ∧
  (fit_calls a.1.1 = 2 ∧ fitting_calls a.1.1 = 3) ∧
  (fit_calls b.1.1 = 1 ∧ fitting_calls b.1.1 = 2) ∧
  (fit_calls c.1.1 = 2 ∧ fitting_calls c.1.1 = 2).
Proof.
  intros h a b c.
  assert (a = (a.1.1, Done (), a.2)) as Ha by (vm_compute; reflexivity).
  assert (b = (b.1.1, Done (), b.2)) as Hb by (vm_compute; reflexivity).
  assert (c = (c.1.1, Done (), c.2)) as Hc by (vm_compute; reflexivity).
  split; [by repeat split|].
  split; [|split].
  - destruct (fit_calls_per_notebook Sample.py h fresh_kernel a.1.1 a.2) as (H & _ & _).
    destruct (H Ha) as (? & ? & _). by split.
  - destruct (fit_calls_per_notebook Sample.py h fresh_kernel b.1.1 b.2) as (_ & H & _).
    destruct (H Hb) as (? & ? & _). by split.
  - destruct (fit_calls_per_notebook Sample.py h fresh_kernel c.1.1 c.2) as (_ & _ & H).
    destruct (H Hc) as (? & ? & _). by split.
Defined.

Lemma library_errors_propagate_witness :
  let h := sklearn (Sample.offline Sample.ascending) Sample.library in
  let b := run h (topic_modeling Sample.py) fresh_kernel in
  (h _ (ReadCsv "data/powerplant.csv") fresh_kernel
     = (inl FileNotFoundError, fresh_kernel) ∧
   Entry (Fetch20Newsgroups true 1 ["headers"; "footers"; "quotes"]) (inl URLError)
     ∈ b.1.1) ∧
  run h (standard_scaling Sample.py) fresh_kernel
    = ([Entry (ReadCsv "data/powerplant.csv") (inl FileNotFoundError)],
       Raised FileNotFoundError, fresh_kernel) ∧
  b.1.2 = Raised URLError ∧ console b.1.1 = ["Loading dataset..."].
Proof.
  intros h b.
  assert (h _ (ReadCsv "data/powerplant.csv") fresh_kernel
            = (inl FileNotFoundError, fresh_kernel)) as Hread by reflexivity.
  assert (Entry (Fetch20Newsgroups true 1 ["headers"; "footers"; "quotes"])
            (inl URLError) ∈ b.1.1) as Hfetch.
  { vm_compute. do 2 apply list_elem_of_further. apply list_elem_of_here. }
  split; [by split|].
  destruct (library_errors_propagate Sample.py h fresh_kernel) as (_ & Hcsv & _ & Hnet).
  split; [exact (Hcsv _ _ Hread)|].
  destruct (Hnet b.1.1 b.1.2 b.2 URLError) as (Ho & Hc & _).
  - unfold b. by destruct (run h _ _) as [[??]?].
  - exact Hfetch.
  - by split.
Defined.

(** C6 as stated fails on the clustering and PCA notebook: [load_iris]
    acquires a dataset that is neither a local CSV read nor the corpus
    fetch. *)
Lemma clustering_pca_loads_bundled_data :
  let r := run (sklearn (Sample.online Sample.ascending) Sample.library)
             (clustering_pca Sample.py) fresh_kernel in
  r.1.2 = Done () ∧
  LoadsBundled ∈ entry_effect <$> r.1.1 ∧
  ¬ Forall (λ en, listed_interface (entry_effect en) = true) r.1.1.
Proof.
  intros r. split; [vm_compute; reflexivity|].
  assert (LoadsBundled ∈ entry_effect <$> r.1.1) as Hin.
  { vm_compute. do 14 apply list_elem_of_further. apply list_elem_of_here. }
  split; [exact Hin|].
  intros Hall. apply list_elem_of_fmap in Hin as (en & Hen & Hin).
  rewrite Forall_forall in Hall. apply Hall in Hin. by rewrite <-Hen in Hin.
Qed.

Lemma effects_per_notebook_witness :
  let h := sklearn (Sample.online Sample.ascending) Sample.library in
  let b := run h (topic_modeling Sample.py) fresh_kernel in
  b = (b.1.1, Done (), b.2) ∧ fetch_calls b.1.1 = 1.
Proof.
  intros h b.
  assert (b = (b.1.1, Done (), b.2)) as Hb by (vm_compute; reflexivity).
  split; [exact Hb|].
  destruct (effects_per_notebook Sample.py h fresh_kernel) as (_ & _ & _ & Hfetch).
  exact (Hfetch _ _ Hb).
Defined.

(** C7 as stated fails on the standard-scaling notebook: the first
    regression is fitted before any feature is transformed. *)
Lemma standard_scaling_fits_before_transform :
  let r := run (sklearn (Sample.online Sample.ascending) Sample.library)
             (standard_scaling Sample.py) fresh_kernel in
  r.1.2 = Done () ∧
  pipeline r.1.1 = [Load; Train; Reshape; Train; Reshape] ∧
  ¬ in_pipeline_order (pipeline r.1.1).
Proof.
  intros r. split; [vm_compute; reflexivity|].
  assert (pipeline r.1.1 = [Load; Train; Reshape; Train; Reshape]) as ->
    by (vm_compute; reflexivity).
  split; [reflexivity|].
  apply (bool_decide_eq_false_1 (in_pipeline_order _)). vm_compute. reflexivity.
Qed.

Lemma pipeline_per_notebook_witness :
  let h := sklearn (Sample.online Sample.ascending) Sample.library in
  let a := run h (standard_scaling Sample.py) fresh_kernel in
  let b := run h (topic_modeling Sample.py) fresh_kernel in
  let c := run h (clustering_pca Sample.py) fresh_kernel in
  (a = (a.1.1, Done (), a.2) ∧ b = (b.1.1, Done (), b.2) ∧ c = (c.1.1, Done (), c.2)) ∧
  pipeline b.1.1 = [Load; Reshape; Train] ∧
  pipeline a.1.1 = [Load; Train; Reshape; Train; Reshape] ∧
  pipeline c.1.1 = [Load; Reshape; Train; Load; Train; Reshape].
Proof.
  intros h a b c.
  assert (a = (a.1.1, Done (), a.2)) as Ha by (vm_compute; reflexivity).
  assert (b = (b.1.1, Done (), b.2)) as Hb by (vm_compute; reflexivity).
  assert (c = (c.1.1, Done (), c.2)) as Hc by (vm_compute; reflexivity).
  split; [by repeat split|].
  split; [|split].
  - destruct (pipeline_per_notebook Sample.py h fresh_kernel b.1.1 b.2) as (H & _ & _).
    exact (proj1 (H Hb)).
  - destruct (pipeline_per_notebook Sample.py h fresh_kernel a.1.1 a.2) as (_ & H & _).
    exact (H Ha).
  - destruct (pipeline_per_notebook Sample.py h fresh_kernel c.1.1 c.2) as (_ & _ & H).
    exact (H Hc).
Defined.

(** C9 as stated fails for the row [[5; 1]], the vocabulary [["a"]] and
    [n_top_words = 1]: the vocabulary is shorter than the row, and the call
    prints its line without an [IndexError]. *)
Lemma short_vocabulary_need_not_fail :
  let md := Sample.topics [[5; 1]]%Z in
  let r := run (sklearn (Sample.online Sample.ascending) Sample.library)
             (print_top_words (@Ref Sample.the_nmf 0) ["a"] 1)
             (Sample.holding md) in
  Forall (λ row, length ["a"] < length row) (est_components Sample.library md) ∧
  r.1.2 = Done () ∧ console r.1.1 = ["Topic #0: a"; ""] ∧
  r.1.2 ≠ Raised IndexError.
Proof.
  intros md r. split; [repeat constructor|].
  assert (r.1.2 = Done ()) as -> by (vm_compute; reflexivity).
  split; [reflexivity|]. split; [vm_compute; reflexivity|discriminate].
Qed.

Lemma print_top_words_ranks_witness :
  let md := Sample.topics [[5; 1; 3]; [2; 7; 7]]%Z in
  let names := ["zero"; "one"; "two"] in
  let r := run (sklearn (Sample.online Sample.ascending) Sample.library)
             (print_top_words (@Ref Sample.the_nmf 0) names 2)
             (Sample.holding md) in
  (fitted (@Ref Sample.the_nmf 0) (Sample.holding md) = Some md ∧
   (0 ≤ 2)%Z ∧
   Forall (λ row, is_argsort Sample.py row (np_argsort Sample.library row))
     (est_components Sample.library md)) ∧
  r.1.2 = Done () ∧ console r.1.1 = ["Topic #0: zero two"; "Topic #1: one two"; ""].
Proof.
  intros md names r.
  assert (fitted (@Ref Sample.the_nmf 0) (Sample.holding md) = Some md) as Hfit
    by reflexivity.
  assert (Forall (λ row, is_argsort Sample.py row (np_argsort Sample.library row))
            (est_components Sample.library md)) as Hsort.
  { repeat constructor;
      apply (bool_decide_unpack (is_argsort Sample.py _ _)); vm_compute; exact I. }
  split; [split; [exact Hfit|split; [lia|exact Hsort]]|].
  destruct (print_top_words_ranks Sample.py (Sample.online Sample.ascending)
              Sample.library (@Ref Sample.the_nmf 0) md names 2 (Sample.holding md)
              Hfit ltac:(lia) Hsort) as (_ & _ & Hrun).
  vm_compute in Hrun. exact Hrun.
Defined.

Lemma rmse_follows_unseeded_split_witness :
  let a := run (sklearn (Sample.online Sample.ascending) Sample.library)
             (standard_scaling Sample.py) fresh_kernel in
  let b := run (sklearn (Sample.online Sample.reshuffled) Sample.library)
             (standard_scaling Sample.py) fresh_kernel in
  (a = (a.1.1, Done (), a.2) ∧ b = (b.1.1, Done (), b.2)) ∧
  files (Sample.online Sample.ascending) "data/powerplant.csv"
    = files (Sample.online Sample.reshuffled) "data/powerplant.csv" ∧
  console a.1.1 = ["RMSE 64"; "[0 0 0 0]"; "RMSE 64"] ∧
  console b.1.1 = ["RMSE 64"; "[0 0 0 0]"; "RMSE 99"] ∧
  console b.1.1 ≠ console a.1.1.
Proof.
  intros a b.
  assert (a = (a.1.1, Done (), a.2)) as Ha by (vm_compute; reflexivity).
  assert (b = (b.1.1, Done (), b.2)) as Hb by (vm_compute; reflexivity).
  split; [by split|]. split; [reflexivity|].
  split; [vm_compute; reflexivity|]. split; [vm_compute; reflexivity|].
  destruct (rmse_follows_unseeded_split Sample.py (Sample.online Sample.ascending)
              Sample.library fresh_kernel a.1.1 a.2 Ha)
    as (df & X & y & f1 & f2 & r1 & r2 & coefs & Hdf & HX & Hy & _ & Hf2 & _ & Hr2
        & _ & Hvary).
  vm_compute in Hdf. injection Hdf as <-.
  vm_compute in HX. injection HX as <-.
  vm_compute in Hy. injection Hy as <-.
  vm_compute in Hf2. injection Hf2 as <-.
  vm_compute in Hr2. injection Hr2 as <-.
  eapply (Hvary (Sample.online Sample.reshuffled) b.1.1 b.2 _ 99%Z).
  - reflexivity.
  - exact Hb.
  - vm_compute. reflexivity.
  - vm_compute. reflexivity.
  - vm_compute. discriminate.
Defined.

(** ** The further properties on the sample instance *)

Lemma print_top_words_lines_witness :
  let r := run (sklearn (Sample.online Sample.ascending) Sample.library)
             (print_top_words (@Ref Sample.the_nmf 0) ["zero"; "one"; "two"] 2)
             (Sample.holding (Sample.topics [[5; 1; 3]; [2; 7; 7]]%Z)) in
  r = (r.1.1, Done (), r.2) ∧
  console r.1.1 = ["Topic #0: zero two"; "Topic #1: one two"; ""] ∧
  ∃ rows : list (list Z), length (console r.1.1) = length rows + 1.
Proof.
  intros r.
  assert (r = (r.1.1, Done (), r.2)) as Hrun by (vm_compute; reflexivity).
  split; [exact Hrun|]. split; [vm_compute; reflexivity|].
  destruct (print_top_words_lines _ _ _ _ _ _ _ Hrun)
    as (rows & groups & _ & _ & Hlen).
  exists rows. exact Hlen.
Defined.

Lemma print_top_words_fails_midway_witness :
  let md := Sample.topics [[5; 1]; [1; 5]; [3; 3]]%Z in
  let N := Sample.library in
  let r := run (sklearn (Sample.online Sample.ascending) N)
             (print_top_words (@Ref Sample.the_nmf 0) ["a"] 1)
             (Sample.holding md) in
  (fitted (@Ref Sample.the_nmf 0) (Sample.holding md) = Some md ∧
   est_components N md = [[5; 1]%Z] ++ [1; 5]%Z :: [[3; 3]%Z] ∧
   mapM (mapM (["a"] !!.)) (selected N 1 <$> [[5; 1]%Z]) = Some [["a"]] ∧
   mapM (["a"] !!.) (selected N 1 [1; 5]%Z) = None) ∧
  r.1.2 = Raised IndexError ∧ console r.1.1 = ["Topic #0: a"].
Proof.
  intros md N r.
  assert (fitted (@Ref Sample.the_nmf 0) (Sample.holding md) = Some md) as Hfit
    by reflexivity.
  assert (est_components N md = [[5; 1]%Z] ++ [1; 5]%Z :: [[3; 3]%Z]) as Hrows
    by reflexivity.
  assert (mapM (mapM (["a"] !!.)) (selected N 1 <$> [[5; 1]%Z]) = Some [["a"]])
    as Hgood by (vm_compute; reflexivity).
  assert (mapM (["a"] !!.) (selected N 1 [1; 5]%Z) = None) as Hbad
    by (vm_compute; reflexivity).
  split; [by repeat split|].
  destruct (print_top_words_fails_midway (Sample.online Sample.ascending) N
              (@Ref Sample.the_nmf 0) md ["a"] 1 (Sample.holding md)
              [[5; 1]%Z] [1; 5]%Z [[3; 3]%Z] [["a"]] Hfit Hrows Hgood Hbad)
    as (Hout & Hlines & _ & _).
  split; [exact Hout|exact Hlines].
Defined.

Lemma print_top_words_negative_witness :
  let md := Sample.topics [[5; 1; 3]; [2; 7; 7]]%Z in
  let names := ["zero"; "one"; "two"] in
  let r := run (sklearn (Sample.online Sample.ascending) Sample.library)
             (print_top_words (@Ref Sample.the_nmf 0) names (-1))
             (Sample.holding md) in
  (fitted (@Ref Sample.the_nmf 0) (Sample.holding md) = Some md ∧
   (-1 < 0)%Z ∧
   Forall (λ row, is_argsort Sample.py row (np_argsort Sample.library row))
     (est_components Sample.library md)) ∧
  r.1.2 = Done () ∧ console r.1.1 = ["Topic #0: zero two"; "Topic #1: one two"; ""].
Proof.
  intros md names r.
  assert (fitted (@Ref Sample.the_nmf 0) (Sample.holding md) = Some md) as Hfit
    by reflexivity.
  assert (Forall (λ row, is_argsort Sample.py row (np_argsort Sample.library row))
            (est_components Sample.library md)) as Hsort.
  { repeat constructor;
      apply (bool_decide_unpack (is_argsort Sample.py _ _)); vm_compute; exact I. }
  split; [split; [exact Hfit|split; [lia|exact Hsort]]|].
  destruct (print_top_words_negative Sample.py (Sample.online Sample.ascending)
              Sample.library (@Ref Sample.the_nmf 0) md names (-1) (Sample.holding md)
              Hfit ltac:(lia) Hsort) as (_ & Hrun).
  vm_compute in Hrun. exact Hrun.
Defined.

Lemma topic_modeling_timing_witness :
  let r := run (sklearn (Sample.online Sample.ascending) Sample.library)
             (topic_modeling Sample.py) fresh_kernel in
  r = (r.1.1, Done (), r.2) ∧
  take 6 (console r.1.1)
    = ["Loading dataset..."; "done in 100s.";
       "Extracting tf-idf features for NMF..."; "done in 100s.";
       "Fitting the NMF model (Frobenius norm) with tf-idf features, n_samples=2000 and n_features=1000...";
       "done in 100s."] ∧
  ∃ rest, drop 19 r.1.1 = rest ∧ Forall (λ en, entry_effect en ≠ ReadsClock) rest.
Proof.
  intros r.
  assert (r = (r.1.1, Done (), r.2)) as Hrun by (vm_compute; reflexivity).
  split; [exact Hrun|]. split; [vm_compute; reflexivity|].
  destruct (topic_modeling_timing Sample.py _ _ _ _ Hrun)
    as (t0 & t1 & t2 & t3 & t4 & t5 & dataset & vectorizer & tfidf & unfitted & nmf
        & names & rest & Htr & Hrest).
  exists rest. split; [by rewrite Htr|exact Hrest].
Defined.

Lemma low_names_echoed_witness :
  let W := Sample.with_posts ["apple"; "10"; "car"; "Zed"; "bee"] Sample.ascending in
  let r := run (sklearn W Sample.library) (topic_modeling Sample.py) fresh_kernel in
  r = (r.1.1, Done (), r.2) ∧
  names_before_b ["10"; "Zed"; "apple"; "bee"; "car"] [0; 0; 1; 0; 0]%Z
    = [("10", 0%Z); ("Zed", 0%Z); ("apple", 1%Z)] ∧
  Entry (Display "[('10', 0), ('Zed', 0), ('apple', 1)]") (inr ()) ∈ r.1.1 ∧
  ∃ names row,
    Entry (Display (repr_pairs Sample.py (names_before_b names row))) (inr ())
      ∈ r.1.1.
Proof.
  intros W r.
  assert (r = (r.1.1, Done (), r.2)) as Hrun by (vm_compute; reflexivity).
  split; [exact Hrun|]. split; [vm_compute; reflexivity|].
  split; [vm_compute; do 22 apply list_elem_of_further; apply list_elem_of_here|].
  destruct (low_names_echoed Sample.py _ _ _ _ Hrun)
    as (vectorizer & names & nmf & rows & row & _ & _ & _ & Hecho & _).
  exists names, row. exact Hecho.
Defined.

Lemma cluster_means_flow_witness :
  let r := run (sklearn (Sample.online Sample.ascending) Sample.library)
             (clustering_pca Sample.py) fresh_kernel in
  r = (r.1.1, Done (), r.2) ∧
  console r.1.1
    = ["[330, 330, 331]"; "explained variance ratio (first two components): [0 0]"] ∧
  ∃ X, omap (observe (@fit_data Sample.num Sample.table Sample.column))
         (take 14 r.1.1) = [(X, None)].
Proof.
  intros r.
  assert (r = (r.1.1, Done (), r.2)) as Hrun by (vm_compute; reflexivity).
  split; [exact Hrun|]. split; [vm_compute; reflexivity|].
  destruct (cluster_means_flow Sample.py _ _ _ _ Hrun)
    as (df & df2 & df3 & y & X & km & labels & stacked & kdf & m0 & m1 & m2 & rest
        & _ & Hfit).
  exists X. exact Hfit.
Defined.

Lemma pca_scatter_flow_witness :
  let r := run (sklearn (Sample.online Sample.ascending) Sample.library)
             (clustering_pca Sample.py) fresh_kernel in
  r = (r.1.1, Done (), r.2) ∧
  length (List.filter entry_is_scatter r.1.1) = 3 ∧
  ∃ iris : iris_bunch Sample.table Sample.column,
    length (List.filter entry_is_scatter r.1.1) = 3 `min` length (iris_target_names iris).
Proof.
  intros r.
  assert (r = (r.1.1, Done (), r.2)) as Hrun by (vm_compute; reflexivity).
  split; [exact Hrun|]. split; [vm_compute; reflexivity|].
  destruct (pca_scatter_flow Sample.py _ _ _ _ Hrun)
    as (pre & iris & pca & fitted & X_r & ratio & components & groups & text
        & _ & _ & Hcount).
  exists iris. exact Hcount.
Defined.

Lemma topic_modeling_reproducible_witness :
  let W := Sample.online Sample.ascending in
  let W' := Sample.without_files Sample.reshuffled in
  ((∀ shuffle random_state remove,
       corpus W' shuffle random_state remove = corpus W shuffle random_state remove) ∧
   (∀ k, clock W' k = clock W k)) ∧
  files W' "data/powerplant.csv" ≠ files W "data/powerplant.csv" ∧
  entropy W' 1 ≠ entropy W 1 ∧
  run (sklearn W' Sample.library) (topic_modeling Sample.py) fresh_kernel
    = run (sklearn W Sample.library) (topic_modeling Sample.py) fresh_kernel.
Proof.
  intros W W'.
  assert (∀ shuffle random_state remove,
            corpus W' shuffle random_state remove
              = corpus W shuffle random_state remove) as Hcorpus by reflexivity.
  assert (∀ k, clock W' k = clock W k) as Hclock by reflexivity.
  split; [by split|]. split; [discriminate|]. split; [discriminate|].
  exact (proj1 (topic_modeling_reproducible Sample.py W W' Sample.library
                  fresh_kernel Hcorpus Hclock)).
Defined.

Lemma kmeans_follows_global_state_witness :
  let r := run (sklearn (Sample.online Sample.ascending) Sample.library)
             (clustering_pca Sample.py) fresh_kernel in
  r = (r.1.1, Done (), r.2) ∧ draws r.2 = 1.
Proof.
  intros r.
  assert (r = (r.1.1, Done (), r.2)) as Hrun by (vm_compute; reflexivity).
  split; [exact Hrun|].
  destruct (kmeans_follows_global_state Sample.py _ _ _ _ _ Hrun)
    as (X & km & pca & X_r & _ & _ & _ & _ & _ & _ & _ & _ & Hdraws).
  exact Hdraws.
Defined.

Lemma held_out_folds_never_fitted_witness :
  let r := run (sklearn (Sample.online Sample.ascending) Sample.library)
             (standard_scaling Sample.py) fresh_kernel in
  r = (r.1.1, Done (), r.2) ∧
  ∃ f1 f2 : folds Sample.table Sample.column,
    omap (observe (@scored_data Sample.num Sample.table Sample.column)) r.1.1
      = [y_test f1; y_test f2].
Proof.
  intros r.
  assert (r = (r.1.1, Done (), r.2)) as Hrun by (vm_compute; reflexivity).
  split; [exact Hrun|].
  destruct (held_out_folds_never_fitted Sample.py _ _ _ _ Hrun)
    as (X & y & f1 & f2 & ss & Xtr & Xte & _ & _ & _ & _ & _ & _ & Hscored).
  exists f1, f2. exact Hscored.
Defined.

Lemma echoed_coefficients_are_standardized_witness :
  let r := run (sklearn (Sample.online Sample.ascending) Sample.library)
             (standard_scaling Sample.py) fresh_kernel in
  r = (r.1.1, Done (), r.2) ∧ next_addr r.2 = 3.
Proof.
  intros r.
  assert (r = (r.1.1, Done (), r.2)) as Hrun by (vm_compute; reflexivity).
  split; [exact Hrun|].
  destruct (echoed_coefficients_are_standardized Sample.py _ _ _ _ _ Hrun)
    as (X & y & f1 & f2 & raw & stats & Xtr & lm & _ & _ & _ & _ & _ & _ & _ & _ & _
        & _ & _ & Hnext).
  exact Hnext.
Defined.
